(** * GoogleSheetsConnector: a shallow embedding of [googlesheets.py]

    The connector of [src/gsheets_db_connector/googlesheets.py] holds two
    collaborators, a spreadsheet handle ([self.__sheet]) and a database
    connection ([self.__dbconn]), and every method is a short sequence of
    calls on them with logging around it.  The embedding is a state and
    exception monad over a [World] that contains the remote spreadsheet,
    the database, the file system, the log and the trace of collaborator
    calls.  The methods of the class are transcribed statement by
    statement; the collaborators (gspread, pandas/sqlite3, [open]) are not
    part of the repository and are modelled from their contracts. *)

From stdpp Require Import base option list gmap strings pretty.

Open Scope string_scope.
Open Scope list_scope.
Open Scope nat_scope.

(** ** Python values, exceptions and the monad *)

(** Exceptions that the modelled calls can raise.  [IOError] is Python's
    [OSError]; [DatabaseError] is [sqlite3.DatabaseError] (and what pandas
    re-raises); [WorksheetNotFound] is gspread's exception, the spec's
    NotFoundError kind. *)
Inductive exn :=
  | IOError
  | DatabaseError
  | WorksheetNotFound
  | IncorrectCellLabel
  | APIError
  | TypeError
  | ValueError
  | IndexError
  | OverflowError.

Inductive result (A : Type) :=
  | Ok (a : A)
  | Raise (e : exn).
Arguments Ok {A} a.
Arguments Raise {A} e.

(** A cell value as the service renders it. *)
Abbreviation Value := string (only parsing).

(** An argument of a client call: the connector passes either a string or
    (at line 88) a tuple of strings. *)
Inductive pyarg :=
  | PyStr (s : string)
  | PyTuple (items : list string).

(** ** The spreadsheet collaborator *)

(** A cell object of gspread: coordinates and the value fetched. *)
Record Cell := mkCell { cell_row : nat; cell_col : nat; cell_value : Value }.

(** A worksheet of the remote spreadsheet: its title and its grid, a sparse
    store from (row, column), both counted from 1, to the value held. *)
Record Worksheet := mkWorksheet {
  ws_title : string;
  ws_cells : gmap (nat * nat) Value
}.

(** The worksheets in the listing order of the service. *)
Abbreviation Spreadsheet := (list Worksheet) (only parsing).

(** ** The database collaborator *)

(** A row of a DataFrame or of a table: column name to value. *)
Abbreviation Row := (gmap string Value) (only parsing).

Record Table := mkTable {
  tbl_columns : gset string;
  tbl_rows : list Row
}.

Abbreviation Database := (gmap string Table) (only parsing).

(** [if_exists] of [DataFrame.to_sql]. *)
Inductive if_exists_mode := IfExistsFail | IfExistsReplace | IfExistsAppend.

(** ** Files *)

(** A file of the file system: whether the process may read it, and its
    text. *)
Record File := mkFile { file_readable : bool; file_text : string }.

(** ** Logging *)

Inductive level := INFO | ERROR.

(** A log record keeps the format string and its arguments, as
    [logger.info(fmt, *args)] does. *)
Record LogRecord := mkLog { log_level : level; log_msg : string; log_args : list string }.

(** ** Trace of collaborator calls *)

Inductive call :=
  | FsOpenRead (path : string)
  | DbExecutescript (sql : string)
  | DbToSql (name : string) (rows : list Row) (mode : if_exists_mode)
  | ShWorksheets
  | ShWorksheet (title : string)
  | ShAddWorksheet (title : string)
  | WsGetAllRecords (title : string)
  | WsUpdateAcell (title : string) (label : string) (v : Value)
  | WsAcell (title : string) (label : string)
  | WsClear (title : string)
  | WsRange (title : string) (name : pyarg)
  | WsUpdateCells (title : string) (cells : list Cell).

(** ** The world *)

Record World := mkWorld {
  w_sheet : list Worksheet;
  w_db : gmap string Table;
  w_fs : gmap string File;
  w_log : list LogRecord;
  w_calls : list call
}.

Definition set_sheet (s : list Worksheet) (w : World) : World :=
  mkWorld s (w_db w) (w_fs w) (w_log w) (w_calls w).
Definition set_db (d : gmap string Table) (w : World) : World :=
  mkWorld (w_sheet w) d (w_fs w) (w_log w) (w_calls w).
Definition add_log (r : LogRecord) (w : World) : World :=
  mkWorld (w_sheet w) (w_db w) (w_fs w) (w_log w ++ [r]) (w_calls w).
Definition add_call (c : call) (w : World) : World :=
  mkWorld (w_sheet w) (w_db w) (w_fs w) (w_log w) (w_calls w ++ [c]).

(** A computation runs on a world and ends with a value or an exception;
    the world it leaves is kept in both cases. *)
Definition M (A : Type) : Type := World → result A * World.

Definition ret {A} (a : A) : M A := λ w, (Ok a, w).
Definition raise {A} (e : exn) : M A := λ w, (Raise e, w).
Definition bind {A B} (c : M A) (k : A → M B) : M B :=
  λ w, match c w with
       | (Ok a, w') => k a w'
       | (Raise e, w') => (Raise e, w')
       end.

Declare Scope py_scope.
Delimit Scope py_scope with py.
Notation "x <- c ;; k" := (bind c (λ x, k))
  (at level 20, c at level 99, k at level 200, right associativity) : py_scope.
Notation "c ;;; k" := (bind c (λ _, k))
  (at level 100, k at level 200, right associativity) : py_scope.

Definition lift {A} (r : result A) : M A := λ w, (r, w).
Definition get : M World := λ w, (Ok w, w).
Definition modify (f : World → World) : M unit := λ w, (Ok tt, f w).
Definition trace (c : call) : M unit := modify (add_call c).

(** [for x in l: body x] *)
Fixpoint for_each {A} (l : list A) (body : A → M unit) : M unit :=
  match l with
  | [] => ret tt
  | x :: l' => (body x ;;; for_each l' body)%py
  end.

(** [logger.info(msg, *args)] and [logger.error(msg, *args)] *)
Definition logger_info (msg : string) (args : list string) : M unit :=
  modify (add_log (mkLog INFO msg args)).
Definition logger_error (msg : string) (args : list string) : M unit :=
  modify (add_log (mkLog ERROR msg args)).

(** ** Collaborator calls

    The spreadsheet service client, the database connection and the file
    read are external collaborators (gspread, pandas with sqlite3, the
    built-in [open]); their code is not in the repository, and section 6
    of the specification lists the operations consumed.  Each call is
    recorded in the trace before it acts. *)

(** Modelled from the spec: the worksheet object of the client, which is
    not in the repository.  It is a handle on a remote worksheet: the
    position of the worksheet in the spreadsheet and the title it had when
    the handle was made. *)
Record Handle := mkHandle { h_index : nat; h_title : string }.

(** Modelled from the spec: the rectangular table that pandas builds,
    [pd.DataFrame(records)], for a list of dicts: one row per dict, the
    columns are the keys met. *)
Record DataFrame := mkDataFrame {
  df_columns : gset string;
  df_rows : list (gmap string string)
}.

(** Modelled from the spec: what the client and pandas do with the values
    of the data rows is left open, and so is when the database layer
    refuses a [to_sql]; both are parameters.  [numericise] is the value
    that a data cell gives in a record (the client turns the text of a
    number into that number; header cells are kept as they are).
    [to_sql_refusal] says whether a [to_sql] raises, for any reason the
    layer has (a missing column, a value out of range, a column name it
    does not take), with which exception, and whether the table, when it
    was absent, is left behind empty. *)
Class Tabular := {
  numericise : string → string;
  to_sql_refusal :
    DataFrame → string → if_exists_mode → gmap string Table → option (exn * bool)
}.

(** Modelled from the spec: "read all records as rows" of the client
    ([get_all_records], not in the repository).  The grid is read up to
    the last row and the last column that hold a value, the first row
    gives the keys, every later row gives one dict of its numericised
    values.  On a grid that holds no value at all the client's
    [get_all_records] raises IndexError (it indexes the header row of an
    empty list); the pure function gives no record there and the call
    [ws_get_all_records] below raises. *)
Definition used_rows (cells : gmap (nat * nat) string) : nat :=
  map_fold (λ rc v acc, if decide (v = "") then acc else rc.1 `max` acc) 0 cells.
Definition used_cols (cells : gmap (nat * nat) string) : nat :=
  map_fold (λ rc v acc, if decide (v = "") then acc else rc.2 `max` acc) 0 cells.
Definition cell_at (cells : gmap (nat * nat) string) (r c : nat) : string :=
  default "" (cells !! (r, c)).
Definition get_all_values (cells : gmap (nat * nat) string) : list (list string) :=
  (λ r, cell_at cells r <$> seq 1 (used_cols cells)) <$> seq 1 (used_rows cells).
(** [dict(zip(keys, row))]: a later binding of a repeated key wins. *)
Definition dict_zip (keys row : list string) : gmap string string :=
  list_to_map (reverse (zip keys row)).
Definition get_all_records `{Tabular} (cells : gmap (nat * nat) string)
    : list (gmap string string) :=
  match get_all_values cells with
  | [] => []
  | keys :: rows => (λ row, dict_zip keys (numericise <$> row)) <$> rows
  end.

Definition pd_DataFrame (records : list (gmap string string)) : DataFrame :=
  mkDataFrame (⋃ (dom <$> records)) records.
Definition df_index (df : DataFrame) : list nat := seq 0 (length (df_rows df)).

(** A change of the grid of the worksheet at position [i]; the title
    stays. *)
Definition updated (f : gmap (nat * nat) string → gmap (nat * nat) string) (ws : Worksheet)
    : Worksheet :=
  mkWorksheet (ws_title ws) (f (ws_cells ws)).
Definition update_worksheet (i : nat) (f : gmap (nat * nat) string → gmap (nat * nat) string)
    (s : list Worksheet) : list Worksheet :=
  alter (updated f) i s.

(** The cells of the rectangle between two corners, row by row. *)
Definition cells_of_range (cells : gmap (nat * nat) string) (r1 c1 r2 c2 : nat) : list Cell :=
  r ← seq r1 (S r2 - r1); (λ c, mkCell r c (cell_at cells r c)) <$> seq c1 (S c2 - c1).

Definition write_cells (l : list Cell) (cells : gmap (nat * nat) string) : gmap (nat * nat) string :=
  foldl (λ m c, <[(cell_row c, cell_col c) := cell_value c]> m) cells l.

(** Modelled from the spec: "append a rectangular table of rows to a
    named table (create-if-absent, else append)", the [to_sql] of pandas,
    not in the repository.  When the layer refuses the call the exception
    is raised and no row is written; the table, when it was absent, may be
    left behind empty.  Otherwise the table is created with the columns of
    the frame when it is absent; when it exists, [fail] raises, [replace]
    puts the frame in its place, and [append] adds the rows of the frame
    after the rows held. *)
Definition db_to_sql `{Tabular} (df : DataFrame) (name : string) (mode : if_exists_mode)
    (db : gmap string Table) : result unit * gmap string Table :=
  match to_sql_refusal df name mode db with
  | Some (e, left_behind) =>
      (Raise e,
       match db !! name with
       | None => if left_behind then <[name := mkTable (df_columns df) []]> db else db
       | Some _ => db
       end)
  | None =>
      match db !! name with
      | None => (Ok tt, <[name := mkTable (df_columns df) (df_rows df)]> db)
      | Some t =>
          match mode with
          | IfExistsFail => (Raise ValueError, db)
          | IfExistsReplace => (Ok tt, <[name := mkTable (df_columns df) (df_rows df)]> db)
          | IfExistsAppend =>
              (Ok tt, <[name := mkTable (tbl_columns t) (tbl_rows t ++ df_rows df)]> db)
          end
      end
  end.

(** Modelled from the spec: the parts of the collaborators that the
    specification leaves open are parameters.  The client's decoders of A1
    notation (a cell label such as B2 and a range such as B2:D10) and the
    SQL engine behind [executescript] are taken as they come: the engine
    returns whether the script ran to its end and the database it left. *)
Class Services := {
  a1_to_rowcol : string → option (nat * nat);
  a1_range_to_grid_range : string → option ((nat * nat) * (nat * nat));
  sql_engine : string → gmap string Table → bool * gmap string Table
}.

Section Connector.

Context `{Services, Tabular}.

Local Open Scope py_scope.

(** Modelled from the spec: the file input, [open(path, 'r').read()];
    a file that is absent or may not be read raises IOError. *)
Definition open_read (path : string) : M string :=
  trace (FsOpenRead path) ;;;
  w <- get ;;
  match w_fs w !! path with
  | Some f => if file_readable f then ret (file_text f) else raise IOError
  | None => raise IOError
  end.

(** Modelled from the spec: "execute a multi-statement script",
    [conn.executescript(sql)]; a failure of the engine is a
    DatabaseError. *)
Definition executescript (sql : string) : M unit :=
  trace (DbExecutescript sql) ;;;
  w <- get ;;
  let '(ok, db') := sql_engine sql (w_db w) in
  modify (set_db db') ;;;
  lift (if ok then Ok tt else Raise DatabaseError).

(** Modelled from the spec: [df.to_sql(name, conn, if_exists=mode,
    index=False)] as a call on the connection. *)
Definition to_sql (df : DataFrame) (name : string) (mode : if_exists_mode) : M unit :=
  trace (DbToSql name (df_rows df) mode) ;;;
  w <- get ;;
  let '(r, db') := db_to_sql df name mode (w_db w) in
  modify (set_db db') ;;;
  lift r.

(** Modelled from the spec: "list worksheets", [sheet.worksheets()]. *)
Definition sheet_worksheets : M (list Handle) :=
  trace ShWorksheets ;;;
  w <- get ;;
  ret (imap (λ i ws, mkHandle i (ws_title ws)) (w_sheet w)).

(** Modelled from the spec: "get worksheet by title",
    [sheet.worksheet(title)]: the first worksheet with that title, and
    WorksheetNotFound when there is none. *)
Definition sheet_worksheet (title : string) : M Handle :=
  trace (ShWorksheet title) ;;;
  w <- get ;;
  match list_find (λ ws, ws_title ws = title) (w_sheet w) with
  | Some (i, ws) => ret (mkHandle i (ws_title ws))
  | None => raise WorksheetNotFound
  end.

(** Modelled from the spec: "add worksheet",
    [sheet.add_worksheet(title, rows, cols)]; the service refuses a title
    that is taken. *)
Definition sheet_add_worksheet (title : string) (rows cols : option nat) : M Handle :=
  trace (ShAddWorksheet title) ;;;
  w <- get ;;
  if decide (title ∈ ws_title <$> w_sheet w) then raise APIError
  else
    modify (set_sheet (w_sheet w ++ [mkWorksheet title ∅])) ;;;
    ret (mkHandle (length (w_sheet w)) title).

(** The worksheet a handle stands for. *)
Definition deref (h : Handle) : M Worksheet :=
  w <- get ;;
  match w_sheet w !! h_index h with
  | Some ws => ret ws
  | None => raise APIError
  end.

(** Modelled from the spec: [ws.get_all_records()]; on a worksheet that
    holds no value the client raises IndexError. *)
Definition ws_get_all_records (h : Handle) : M (list (gmap string string)) :=
  trace (WsGetAllRecords (h_title h)) ;;;
  ws <- deref h ;;
  match get_all_values (ws_cells ws) with
  | [] => raise IndexError
  | _ :: _ => ret (get_all_records (ws_cells ws))
  end.

(** Modelled from the spec: "write single cell by reference",
    [ws.update_acell(label, value)]; the cell holds the value written. *)
Definition ws_update_acell (h : Handle) (label : string) (value : string) : M unit :=
  trace (WsUpdateAcell (h_title h) label value) ;;;
  match a1_to_rowcol label with
  | None => raise IncorrectCellLabel
  | Some rc =>
      deref h ;;;
      w <- get ;;
      modify (set_sheet (update_worksheet (h_index h) (insert rc value) (w_sheet w)))
  end.

(** Modelled from the spec: "read single cell by reference",
    [ws.acell(label).value]; a cell never written reads as the empty
    string. *)
Definition ws_acell (h : Handle) (label : string) : M string :=
  trace (WsAcell (h_title h) label) ;;;
  match a1_to_rowcol label with
  | None => raise IncorrectCellLabel
  | Some rc => ws <- deref h ;; ret (cell_at (ws_cells ws) rc.1 rc.2)
  end.

(** Modelled from the spec: [ws.clear()], which removes every value of
    the worksheet. *)
Definition ws_clear (h : Handle) : M unit :=
  trace (WsClear (h_title h)) ;;;
  deref h ;;;
  w <- get ;;
  modify (set_sheet (update_worksheet (h_index h) (λ _, ∅) (w_sheet w))).

(** Modelled from the spec: "read a cell range", [ws.range(name)].  The
    name has to be a string in A1 notation; for any other object the call
    raises and no cell list comes back. *)
Definition ws_range (h : Handle) (name : pyarg) : M (list Cell) :=
  trace (WsRange (h_title h) name) ;;;
  match name with
  | PyTuple _ => raise TypeError
  | PyStr s =>
      match a1_range_to_grid_range s with
      | None => raise IncorrectCellLabel
      | Some ((r1, c1), (r2, c2)) =>
          ws <- deref h ;;
          ret (cells_of_range (ws_cells ws) r1 c1 r2 c2)
      end
  end.

(** Modelled from the spec: "write a cell range",
    [ws.update_cells(cell_list)]: one batch request. *)
Definition ws_update_cells (h : Handle) (cell_list : list Cell) : M unit :=
  trace (WsUpdateCells (h_title h) cell_list) ;;;
  deref h ;;;
  w <- get ;;
  modify (set_sheet (update_worksheet (h_index h) (write_cells cell_list) (w_sheet w))).


(** ** The methods of [GoogleSheetsConnector]

    The private fields [self.__sheet] and [self.__dbconn] are the sheet
    and the database of the world. *)

(** [create_tables], lines 32-39. *)
Definition create_tables (file_path : string) : M unit :=
  ddl_sql <- open_read file_path ;;
  executescript ddl_sql.

(** [update_cell], lines 41-49. *)
Definition update_cell (worksheet cell new_value : string) : M unit :=
  ws <- sheet_worksheet worksheet ;;
  ws_update_acell ws cell new_value.

(** [clear_worksheet], lines 51-57. *)
Definition clear_worksheet (worksheet : string) : M unit :=
  ws <- sheet_worksheet worksheet ;;
  ws_clear ws.

(** The body of the loop of [extract_data], lines 69-75. *)
Definition extract_worksheet (worksheet : Handle) : M unit :=
  logger_info "Extracting %s" [h_title worksheet] ;;;
  data <- sheet_worksheet (h_title worksheet) ;;
  records <- ws_get_all_records data ;;
  let df := pd_DataFrame records in
  logger_info "%s %s extracted" [pretty (length (df_index df)); h_title worksheet] ;;;
  if decide (length (df_index df) = 0) then ret tt
  else to_sql df (h_title worksheet) IfExistsAppend.

(** [extract_data], lines 59-77. *)
Definition extract_data : M unit :=
  worksheet_list <- sheet_worksheets ;;
  logger_info "Extracting mappings from Google sheet." [] ;;;
  for_each worksheet_list extract_worksheet ;;;
  logger_info "Mappings were successfully extracted from google sheets." [].

(** [cell_list[i].value = val]: an index past the end raises. *)
Definition set_value (cell_list : list Cell) (i : nat) (val : string) : M (list Cell) :=
  match cell_list !! i with
  | Some c => ret (<[i := mkCell (cell_row c) (cell_col c) val]> cell_list)
  | None => raise IndexError
  end.

(** [for i, val in enumerate(cell_values): cell_list[i].value = val],
    lines 90-91, from index [i] on. *)
Fixpoint assign_values (cell_list : list Cell) (i : nat) (cell_values : list string)
    : M (list Cell) :=
  match cell_values with
  | [] => ret cell_list
  | val :: rest =>
      cell_list' <- set_value cell_list i val ;;
      assign_values cell_list' (S i) rest
  end.

(** Lines 90-93 of [update_in_range]: what follows the fetch of the
    range. *)
Definition write_back (worksheet : string) (cell_list : list Cell) (cell_values : list string)
    : M unit :=
  cell_list' <- assign_values cell_list 0 cell_values ;;
  ws <- sheet_worksheet worksheet ;;
  ws_update_cells ws cell_list'.

(** [update_in_range], lines 79-93.  Line 88 passes the tuple
    [('%s:%s', start_cell, end_cell)] to [range]. *)
Definition update_in_range (worksheet start_cell end_cell : string) (cell_values : list string)
    : M unit :=
  ws <- sheet_worksheet worksheet ;;
  cell_list <- ws_range ws (PyTuple ["%s:%s"; start_cell; end_cell]) ;;
  write_back worksheet cell_list cell_values.

(** [create_worksheet], lines 95-105. *)
Definition create_worksheet (title : string) : M unit :=
  worksheets <- sheet_worksheets ;;
  if decide (title ∈ h_title <$> worksheets) then
    logger_error "Worksheet '%s' already exists" [title]
  else
    logger_info "Creating Worksheet" [] ;;;
    sheet_add_worksheet title None None ;;;
    logger_info "Worksheet created" [].

(** Modelled from the spec: the read of one cell that follows
    [update_cell] in the specification.  The connector has no method for
    it; it is the client's [sheet.worksheet(title).acell(label).value]. *)
Definition read_cell (worksheet cell : string) : M string :=
  ws <- sheet_worksheet worksheet ;;
  ws_acell ws cell.

End Connector.

(** ** A concrete instance and the scenario of the specification

    The usual A1 notation: one or more letters for the column (A is 1,
    Z is 26, AA is 27), then the row in decimal digits, not starting
    with 0. *)
Definition letter_index (a : Ascii.ascii) : option nat :=
  let n := Ascii.nat_of_ascii a in
  if ((65 <=? n) && (n <=? 90))%nat then Some (n - 64)
  else if ((97 <=? n) && (n <=? 122))%nat then Some (n - 96)
  else None.

Definition digit_value (a : Ascii.ascii) : option nat :=
  let n := Ascii.nat_of_ascii a in
  if ((48 <=? n) && (n <=? 57))%nat then Some (n - 48) else None.

Fixpoint decimal (s : string) (acc : nat) : option nat :=
  match s with
  | EmptyString => Some acc
  | String a rest =>
      match digit_value a with
      | Some d => decimal rest (10 * acc + d)
      | None => None
      end
  end.

Fixpoint std_a1 (s : string) (col : nat) : option (nat * nat) :=
  match s with
  | EmptyString => None
  | String a rest =>
      match letter_index a with
      | Some k => std_a1 rest (26 * col + k)
      | None =>
          match col, digit_value a, decimal s 0 with
          | S _, Some (S _), Some row => Some (row, col)
          | _, _, _ => None
          end
      end
  end.

Fixpoint split_colon (s : string) (acc : string) : option (string * string) :=
  match s with
  | EmptyString => None
  | String a rest =>
      if decide (Ascii.nat_of_ascii a = 58) then Some (String.rev acc, rest)
      else split_colon rest (String a acc)
  end.

Definition std_a1_range (s : string) : option ((nat * nat) * (nat * nat)) :=
  match split_colon s "" with
  | Some (l, r) =>
      match std_a1 l 0, std_a1 r 0 with
      | Some a, Some b => Some (a, b)
      | _, _ => None
      end
  | None => None
  end.

(** An engine that knows one script. *)
Definition employees_ddl : string := "CREATE TABLE Employees (name, dept);".

Definition toy_engine (sql : string) (db : gmap string Table) : bool * gmap string Table :=
  if decide (sql = employees_ddl)
  then (true, <["Employees" := mkTable {["name"; "dept"]} []]> db)
  else (false, db).

Definition std_services : Services :=
  {| a1_to_rowcol := λ s, std_a1 s 0;
     a1_range_to_grid_range := std_a1_range;
     sql_engine := toy_engine |}.

(** A database layer that refuses one thing, an append to a table that
    lacks a column of the frame, with DatabaseError, and a client whose
    data cells hold no number. *)
Definition missing_column_refusal (df : DataFrame) (name : string) (mode : if_exists_mode)
    (db : gmap string Table) : option (exn * bool) :=
  match mode, db !! name with
  | IfExistsAppend, Some t =>
      if decide (df_columns df ⊆ tbl_columns t) then None else Some (DatabaseError, false)
  | _, _ => None
  end.

Definition text_tabular : Tabular :=
  {| numericise := λ v, v;
     to_sql_refusal := missing_column_refusal |}.

(** The spreadsheet of the scenario: Employees with a header and three
    records, Departments with a header only. *)
Definition employees_cells : gmap (nat * nat) string :=
  list_to_map [((1, 1), "name"); ((1, 2), "dept");
               ((2, 1), "Ada"); ((2, 2), "R&D");
               ((3, 1), "Bob"); ((3, 2), "Ops");
               ((4, 1), "Cy"); ((4, 2), "Ops")].

Definition departments_cells : gmap (nat * nat) string :=
  list_to_map [((1, 1), "id"); ((1, 2), "label")].

Definition scenario_sheet : list Worksheet :=
  [mkWorksheet "Employees" employees_cells; mkWorksheet "Departments" departments_cells].

Definition scenario_world : World :=
  mkWorld scenario_sheet ∅ {["schema.sql" := mkFile true employees_ddl;
                             "bad.sql" := mkFile true "CREATE TABLE";
                             "secret.sql" := mkFile false employees_ddl]} [] [].

(** The scenario with a worksheet that holds no value listed first. *)
Definition blank_world : World :=
  set_sheet (mkWorksheet "Blank" ∅ :: scenario_sheet) scenario_world.

(** The scenario with a table Employees made beforehand with one column
    that the worksheet does not have. *)
Definition stale_world : World :=
  set_db {["Employees" := mkTable {["id"]} [{["id" := "1"]}]]} scenario_world.

Section Observations.

Context `{Tabular}.

(** The text a process gets from [open(path).read()], when it gets one. *)
Definition readable_text (w : World) (path : string) : option string :=
  match w_fs w !! path with
  | Some f => if file_readable f then Some (file_text f) else None
  | None => None
  end.

(** The worksheet that [sheet.worksheet(title)] resolves to. *)
Definition worksheet_named (title : string) (s : list Worksheet) : option Worksheet :=
  snd <$> list_find (λ ws, ws_title ws = title) s.

(** The rows of a table of the database; a table that does not exist has
    none. *)
Definition table_rows (db : gmap string Table) (name : string) : list (gmap string string) :=
  match db !! name with
  | Some t => tbl_rows t
  | None => []
  end.

(** The calls made after the first [n] of a trace. *)
Definition calls_since (n : nat) (w : World) : list call := drop n (w_calls w).

Definition is_db_call (c : call) : bool :=
  match c with
  | DbExecutescript _ | DbToSql _ _ _ => true
  | _ => false
  end.

Definition is_sheet_write (c : call) : bool :=
  match c with
  | ShAddWorksheet _ | WsUpdateAcell _ _ _ | WsClear _ | WsUpdateCells _ _ => true
  | _ => false
  end.

(** The records that [extract_data] reads for a title. *)
Definition records_named (title : string) (s : list Worksheet) : list (gmap string string) :=
  match worksheet_named title s with
  | Some ws => get_all_records (ws_cells ws)
  | None => []
  end.

(** The grid that [get_all_records] reads for a title. *)
Definition values_named (title : string) (s : list Worksheet) : list (list string) :=
  match worksheet_named title s with
  | Some ws => get_all_values (ws_cells ws)
  | None => []
  end.



Definition is_to_sql_on (title : string) (c : call) : bool :=
  match c with
  | DbToSql name _ _ => bool_decide (name = title)
  | _ => false
  end.

Definition is_append_or_read (c : call) : bool :=
  match c with
  | DbToSql _ _ IfExistsAppend => true
  | DbToSql _ _ _ | DbExecutescript _ => false
  | _ => true
  end.

(** The world when the body of the loop of [extract_data] has called
    [get_all_records]. *)
Definition fetching (title : string) (w : World) : World :=
  add_call (WsGetAllRecords title)
    (add_call (ShWorksheet title)
       (add_log (mkLog INFO "Extracting %s" [title]) w)).

(** The world when the body of the loop of [extract_data] reaches its
    [if], for a worksheet of [n] records. *)
Definition after_fetch (title : string) (n : nat) (w : World) : World :=
  add_log (mkLog INFO "%s %s extracted" [pretty n; title])
    (add_call (WsGetAllRecords title)
       (add_call (ShWorksheet title)
          (add_log (mkLog INFO "Extracting %s" [title]) w))).

(** The [to_sql] calls that one run of the loop of [extract_data] makes
    for a list of titles: one per title with records, in the order of the
    list. *)
Definition expected_appends (s : list Worksheet) (titles : list string) : list call :=
  omap (λ t, let records := records_named t s in
             if decide (length records = 0) then None
             else Some (DbToSql t records IfExistsAppend)) titles.


Definition extraction_started : LogRecord :=
  mkLog INFO "Extracting mappings from Google sheet." [].

End Observations.

(** * Properties *)

Section ConnectorProofs.

Context `{Services, Tabular}.

Ltac run := unfold bind, trace, modify, get, ret, raise, lift; simpl.

(** ** Worksheet lookup *)

Lemma handles_titles (s : list Worksheet) :
  h_title <$> imap (λ i ws, mkHandle i (ws_title ws)) s = ws_title <$> s.
Proof.
  apply list_eq; intros i.
  rewrite !list_lookup_fmap, list_lookup_imap.
  destruct (s !! i); reflexivity.
Qed.

Lemma sheet_worksheets_run w :
  sheet_worksheets w =
    (Ok (imap (λ i ws, mkHandle i (ws_title ws)) (w_sheet w)), add_call ShWorksheets w).
Proof. reflexivity. Qed.

Lemma sheet_worksheet_found title w i ws :
  list_find (λ ws, ws_title ws = title) (w_sheet w) = Some (i, ws) →
  sheet_worksheet title w = (Ok (mkHandle i title), add_call (ShWorksheet title) w).
Proof.
  intros Hfind. unfold sheet_worksheet. run. rewrite Hfind.
  apply list_find_Some in Hfind as (_ & <- & _). reflexivity.
Qed.

Lemma sheet_worksheet_missing title w :
  title ∉ ws_title <$> w_sheet w →
  sheet_worksheet title w = (Raise WorksheetNotFound, add_call (ShWorksheet title) w).
Proof.
  intros Hnot. unfold sheet_worksheet. run.
  destruct (list_find _ _) as [[i ws]|] eqn:Hfind; [|reflexivity].
  apply list_find_Some in Hfind as (Hi & Ht & _).
  exfalso. apply Hnot. rewrite <- Ht.
  apply list_elem_of_fmap. exists ws. split; [reflexivity|].
  apply list_elem_of_lookup. eauto.
Qed.

Lemma title_found title (s : list Worksheet) :
  title ∈ ws_title <$> s →
  ∃ i ws, list_find (λ ws, ws_title ws = title) s = Some (i, ws).
Proof.
  intros Hin. apply list_elem_of_fmap in Hin as (ws & -> & Hws).
  destruct (list_find (λ ws0, ws_title ws0 = ws_title ws) s) as [[i ws']|] eqn:Hfind.
  - eauto.
  - exfalso. eapply list_find_None in Hfind.
    rewrite Forall_forall in Hfind. apply (Hfind ws Hws). reflexivity.
Qed.

(** ** [create_worksheet] *)

Lemma create_worksheet_existing_run title w :
  title ∈ ws_title <$> w_sheet w →
  create_worksheet title w =
    (Ok tt, add_log (mkLog ERROR "Worksheet '%s' already exists" [title])
              (add_call ShWorksheets w)).
Proof.
  intros Hin. unfold create_worksheet, bind. rewrite sheet_worksheets_run.
  rewrite handles_titles. simpl.
  destruct (decide _) as [_|Hno]; [reflexivity|contradiction].
Qed.

(** A title that no worksheet has: the worksheet is added at the end of
    the listing, empty, and both progress entries are logged. *)
Lemma create_worksheet_new_title title w :
  title ∉ ws_title <$> w_sheet w →
  ∃ w', create_worksheet title w = (Ok tt, w')
    ∧ w_sheet w' = w_sheet w ++ [mkWorksheet title ∅]
    ∧ w_db w' = w_db w
    ∧ w_log w' = w_log w ++ [mkLog INFO "Creating Worksheet" [];
                             mkLog INFO "Worksheet created" []]
    ∧ w_calls w' = w_calls w ++ [ShWorksheets; ShAddWorksheet title].
Proof.
  intros Hnot. unfold create_worksheet, bind at 1. rewrite sheet_worksheets_run.
  rewrite handles_titles. simpl.
  destruct (decide _) as [Hin|_]; [contradiction|].
  unfold sheet_add_worksheet. run.
  destruct (decide _) as [Hin|_]; [contradiction|]. simpl.
  eexists. split; [reflexivity|]. simpl. rewrite <- !app_assoc. repeat split.
Qed.

(** X7: titles stay distinct through [create_worksheet]: on a
    spreadsheet whose titles are pairwise different, the titles after the
    call are pairwise different too, for every title asked for. *)
Lemma create_worksheet_keeps_titles_distinct title w :
  NoDup (ws_title <$> w_sheet w) →
  NoDup (ws_title <$> w_sheet (create_worksheet title w).2).
Proof.
  intros Hnodup. destruct (decide (title ∈ ws_title <$> w_sheet w)) as [Hin|Hnot].
  - rewrite create_worksheet_existing_run by exact Hin. exact Hnodup.
  - destruct (create_worksheet_new_title title w Hnot) as (w' & -> & Hs & _).
    simpl. rewrite Hs, fmap_app. apply NoDup_app. split; [exact Hnodup|].
    split; [|apply NoDup_singleton].
    intros t Ht Ht'. apply list_elem_of_singleton in Ht'. simpl in Ht'. congruence.
Qed.

(** C3: when a worksheet with the title exists, [create_worksheet] returns
    normally, leaves the spreadsheet, the database and the files as they
    were, makes no writing request, and adds exactly one error entry to
    the log. *)
Theorem create_worksheet_existing_title title w :
  title ∈ ws_title <$> w_sheet w →
  ∃ w', create_worksheet title w = (Ok tt, w')
    ∧ w_sheet w' = w_sheet w
    ∧ w_db w' = w_db w
    ∧ w_fs w' = w_fs w
    ∧ w_log w' = w_log w ++ [mkLog ERROR "Worksheet '%s' already exists" [title]]
    ∧ w_calls w' = w_calls w ++ [ShWorksheets].
Proof.
  intros Hin. rewrite create_worksheet_existing_run by exact Hin.
  eexists. split; [reflexivity|]. simpl. repeat split.
Qed.

(** ** [create_tables] *)

Lemma open_read_run path w :
  open_read path w =
    (match readable_text w path with
     | Some text => Ok text
     | None => Raise IOError
     end, add_call (FsOpenRead path) w).
Proof.
  unfold open_read, readable_text. run.
  destruct (w_fs w !! path) as [f|]; [|reflexivity].
  destruct (file_readable f); reflexivity.
Qed.

Lemma executescript_run sql w :
  executescript sql w =
    (if (sql_engine sql (w_db w)).1 then Ok tt else Raise DatabaseError,
     set_db (sql_engine sql (w_db w)).2 (add_call (DbExecutescript sql) w)).
Proof.
  unfold executescript. run.
  destruct (sql_engine sql (w_db w)) as [[] db']; reflexivity.
Qed.

(** C6: [create_tables] raises IOError when the file cannot be read;
    otherwise the whole text of the file is handed to the engine in one
    [executescript] call, a DatabaseError is raised when the engine fails,
    and the call returns normally when it succeeds. *)
Theorem create_tables_outcomes file_path w :
  (readable_text w file_path = None →
     (create_tables file_path w).1 = Raise IOError)
  ∧ (∀ sql, readable_text w file_path = Some sql →
       w_calls (create_tables file_path w).2
         = w_calls w ++ [FsOpenRead file_path; DbExecutescript sql]
       ∧ w_db (create_tables file_path w).2 = (sql_engine sql (w_db w)).2
       ∧ ((sql_engine sql (w_db w)).1 = false →
            (create_tables file_path w).1 = Raise DatabaseError)
       ∧ ((sql_engine sql (w_db w)).1 = true →
            (create_tables file_path w).1 = Ok tt)).
Proof.
  unfold create_tables, bind. rewrite open_read_run. split.
  - intros ->. reflexivity.
  - intros sql ->. rewrite executescript_run. simpl.
    rewrite <- app_assoc. repeat split; intros ->; reflexivity.
Qed.

(** C9: when the file read raises, [create_tables] stops there: the only
    call made is the file read, no call reaches the database connection,
    and the database is the one before the call. *)
Theorem create_tables_io_error_keeps_db file_path w :
  readable_text w file_path = None →
  ∃ w', create_tables file_path w = (Raise IOError, w')
    ∧ w_db w' = w_db w
    ∧ w_calls w' = w_calls w ++ [FsOpenRead file_path]
    ∧ Forall (λ c, is_db_call c = false) (calls_since (length (w_calls w)) w').
Proof.
  intros Hread. unfold create_tables, bind. rewrite open_read_run, Hread.
  eexists. split; [reflexivity|]. simpl. repeat split.
  unfold calls_since. simpl. rewrite drop_app_length.
  repeat constructor.
Qed.

(** ** Worksheets updated in place *)

Lemma update_worksheet_titles i f s :
  ws_title <$> update_worksheet i f s = ws_title <$> s.
Proof.
  unfold update_worksheet. revert i.
  induction s as [|ws s IH]; intros [|i]; simpl; try reflexivity.
  f_equal. apply IH.
Qed.

Lemma update_worksheet_lookup i f s ws :
  s !! i = Some ws → update_worksheet i f s !! i = Some (updated f ws).
Proof.
  intros Hi. unfold update_worksheet.
  rewrite list_lookup_alter_eq, Hi. reflexivity.
Qed.

Lemma list_find_update_worksheet t i f s :
  list_find (λ ws, ws_title ws = t) (update_worksheet i f s)
  = (λ p, (p.1, if decide (p.1 = i) then updated f p.2 else p.2))
      <$> list_find (λ ws, ws_title ws = t) s.
Proof.
  unfold update_worksheet. revert i.
  induction s as [|ws s IH]; intros i; [destruct i; reflexivity|].
  destruct i as [|i]; simpl.
  - destruct (decide (ws_title ws = t)); simpl; [reflexivity|].
    destruct (list_find _ s) as [[j ws']|]; reflexivity.
  - destruct (decide (ws_title ws = t)); simpl; [reflexivity|].
    change (list_alter (updated f) i s) with (alter (updated f) i s).
    rewrite IH. destruct (list_find _ s) as [[j ws']|]; simpl; [|reflexivity].
    destruct (decide (j = i)), (decide (S j = S i)); try reflexivity; lia.
Qed.

Lemma worksheet_named_update_same t i f s ws :
  list_find (λ ws, ws_title ws = t) s = Some (i, ws) →
  worksheet_named t (update_worksheet i f s) = Some (updated f ws).
Proof.
  intros Hfind. unfold worksheet_named.
  rewrite list_find_update_worksheet, Hfind. simpl.
  destruct (decide (i = i)); [reflexivity|congruence].
Qed.

Lemma worksheet_named_update_other t t' i f s ws :
  list_find (λ ws, ws_title ws = t) s = Some (i, ws) → t' ≠ t →
  worksheet_named t' (update_worksheet i f s) = worksheet_named t' s.
Proof.
  intros Hfind Hne. unfold worksheet_named.
  rewrite list_find_update_worksheet.
  destruct (list_find (λ ws0, ws_title ws0 = t') s) as [[j ws']|] eqn:Hfind'; [|reflexivity].
  simpl. destruct (decide (j = i)) as [->|]; [|reflexivity].
  apply list_find_Some in Hfind as (Hi & Ht & _).
  apply list_find_Some in Hfind' as (Hi' & Ht' & _).
  congruence.
Qed.

(** ** Calls on a worksheet handle *)

Lemma ws_update_acell_run i t label value rc ws w :
  a1_to_rowcol label = Some rc → w_sheet w !! i = Some ws →
  ws_update_acell (mkHandle i t) label value w =
    (Ok tt, set_sheet (update_worksheet i (insert rc value) (w_sheet w))
              (add_call (WsUpdateAcell t label value) w)).
Proof.
  intros Hrc Hws. unfold ws_update_acell, deref. run. rewrite Hrc. run.
  rewrite Hws. reflexivity.
Qed.

Lemma ws_acell_run i t label rc ws w :
  a1_to_rowcol label = Some rc → w_sheet w !! i = Some ws →
  ws_acell (mkHandle i t) label w =
    (Ok (cell_at (ws_cells ws) rc.1 rc.2), add_call (WsAcell t label) w).
Proof.
  intros Hrc Hws. unfold ws_acell, deref. run. rewrite Hrc. run.
  rewrite Hws. reflexivity.
Qed.

Lemma ws_clear_run i t ws w :
  w_sheet w !! i = Some ws →
  ws_clear (mkHandle i t) w =
    (Ok tt, set_sheet (update_worksheet i (λ _, ∅) (w_sheet w)) (add_call (WsClear t) w)).
Proof.
  intros Hws. unfold ws_clear, deref. run. rewrite Hws. reflexivity.
Qed.

(** ** [update_cell] and [clear_worksheet] *)

(** C7: for a title that no worksheet has, [update_cell] and
    [clear_worksheet] raise WorksheetNotFound (and change nothing); for a
    title that exists, [clear_worksheet] returns normally, the worksheet
    of that title is still there and holds no value, and every other
    worksheet is as before. *)
Theorem missing_title_not_found_and_clear_empties title w :
  (title ∉ ws_title <$> w_sheet w →
     (∀ cell new_value,
        update_cell title cell new_value w
          = (Raise WorksheetNotFound, add_call (ShWorksheet title) w))
     ∧ clear_worksheet title w
          = (Raise WorksheetNotFound, add_call (ShWorksheet title) w))
  ∧ (title ∈ ws_title <$> w_sheet w →
     ∃ w', clear_worksheet title w = (Ok tt, w')
       ∧ ws_title <$> w_sheet w' = ws_title <$> w_sheet w
       ∧ worksheet_named title (w_sheet w') = Some (mkWorksheet title ∅)
       ∧ (∀ t, t ≠ title →
            worksheet_named t (w_sheet w') = worksheet_named t (w_sheet w))
       ∧ w_db w' = w_db w).
Proof.
  split.
  - intros Hnot. split; [intros cell new_value|].
    + unfold update_cell, bind. rewrite sheet_worksheet_missing by assumption.
      reflexivity.
    + unfold clear_worksheet, bind. rewrite sheet_worksheet_missing by assumption.
      reflexivity.
  - intros Hin. destruct (title_found _ _ Hin) as (i & ws & Hfind).
    pose proof Hfind as (Hi & Ht & _)%list_find_Some.
    unfold clear_worksheet, bind.
    rewrite (sheet_worksheet_found _ _ _ _ Hfind).
    rewrite (ws_clear_run _ _ ws) by exact Hi.
    eexists. split; [reflexivity|]. simpl. repeat split.
    + apply update_worksheet_titles.
    + rewrite (worksheet_named_update_same _ _ _ _ _ Hfind).
      unfold updated. rewrite Ht. reflexivity.
    + intros t Hne. apply (worksheet_named_update_other _ _ _ _ _ _ Hfind Hne).
Qed.

(** C5: on an existing worksheet and for a label the client decodes,
    [update_cell] returns normally and a read of the same cell through
    the client then returns the value written. *)
Theorem update_cell_then_read title cell new_value rc w :
  title ∈ ws_title <$> w_sheet w →
  a1_to_rowcol cell = Some rc →
  ∃ w1 w2, update_cell title cell new_value w = (Ok tt, w1)
    ∧ read_cell title cell w1 = (Ok new_value, w2).
Proof.
  intros Hin Hrc. destruct (title_found _ _ Hin) as (i & ws & Hfind).
  pose proof Hfind as (Hi & Ht & _)%list_find_Some.
  unfold update_cell, read_cell, bind.
  rewrite (sheet_worksheet_found _ _ _ _ Hfind).
  rewrite (ws_update_acell_run _ _ _ _ rc ws) by assumption.
  eexists. eexists. split; [reflexivity|].
  erewrite sheet_worksheet_found; cycle 1.
  { simpl. rewrite list_find_update_worksheet, Hfind. simpl.
    destruct (decide (i = i)); [reflexivity|congruence]. }
  erewrite ws_acell_run; [| exact Hrc |]; cycle 1.
  { simpl. apply update_worksheet_lookup. exact Hi. }
  simpl. unfold cell_at. destruct rc as [r c]. simpl.
  rewrite lookup_insert_eq. reflexivity.
Qed.

(** ** [update_in_range] *)

Lemma ws_update_cells_run i t cell_list ws w :
  w_sheet w !! i = Some ws →
  ws_update_cells (mkHandle i t) cell_list w =
    (Ok tt, set_sheet (update_worksheet i (write_cells cell_list) (w_sheet w))
              (add_call (WsUpdateCells t cell_list) w)).
Proof.
  intros Hws. unfold ws_update_cells, deref. run. rewrite Hws. reflexivity.
Qed.

(** The call of line 88 never gets a cell list: the handle is found (or
    not), and [range] refuses the tuple. *)
Lemma update_in_range_run worksheet start_cell end_cell cell_values w :
  update_in_range worksheet start_cell end_cell cell_values w =
    if decide (worksheet ∈ ws_title <$> w_sheet w)
    then (Raise TypeError,
          add_call (WsRange worksheet (PyTuple ["%s:%s"; start_cell; end_cell]))
            (add_call (ShWorksheet worksheet) w))
    else (Raise WorksheetNotFound, add_call (ShWorksheet worksheet) w).
Proof.
  unfold update_in_range, bind. destruct (decide _) as [Hin|Hnot].
  - destruct (title_found _ _ Hin) as (i & ws & Hfind).
    rewrite (sheet_worksheet_found _ _ _ _ Hfind). reflexivity.
  - rewrite sheet_worksheet_missing by assumption. reflexivity.
Qed.

Lemma update_in_range_never_writes worksheet start_cell end_cell cell_values w :
  ∃ e w', update_in_range worksheet start_cell end_cell cell_values w = (Raise e, w')
    ∧ w_sheet w' = w_sheet w
    ∧ Forall (λ c, is_sheet_write c = false) (calls_since (length (w_calls w)) w').
Proof.
  rewrite update_in_range_run. unfold calls_since.
  destruct (decide _); eexists; eexists; (split; [reflexivity|]); simpl;
    (split; [reflexivity|]).
  - rewrite <- app_assoc, drop_app_length. repeat constructor.
  - rewrite drop_app_length. repeat constructor.
Qed.

(** The loop of lines 90-91 on a cell list that was fetched. *)
Lemma assign_values_fits (cell_values : list string) : ∀ (cell_list : list Cell) i w,
  i + length cell_values ≤ length cell_list →
  ∃ r, assign_values cell_list i cell_values w = (Ok r, w)
    ∧ length r = length cell_list
    ∧ (∀ k v, cell_values !! k = Some v →
         ∃ c, cell_list !! (i + k) = Some c
           ∧ r !! (i + k) = Some (mkCell (cell_row c) (cell_col c) v))
    ∧ (∀ j, j < i ∨ i + length cell_values ≤ j → r !! j = cell_list !! j).
Proof.
  induction cell_values as [|val rest IH]; intros cell_list i w Hlen; simpl in *.
  - exists cell_list. split; [reflexivity|]. split; [reflexivity|].
    split; [intros k v Hk; rewrite lookup_nil in Hk; discriminate|reflexivity].
  - unfold bind, set_value.
    destruct (cell_list !! i) as [c|] eqn:Hc; cycle 1.
    { apply lookup_ge_None in Hc. lia. }
    unfold ret at 1.
    destruct (IH (<[i := mkCell (cell_row c) (cell_col c) val]> cell_list) (S i) w)
      as (r & Hrun & Hlr & Hset & Hkeep).
    { rewrite length_insert. lia. }
    exists r. rewrite Hrun. split; [reflexivity|].
    rewrite length_insert in Hlr. split; [exact Hlr|]. split.
    + intros [|k] v Hk; simpl in Hk.
      * injection Hk as <-. exists c. rewrite Nat.add_0_r. split; [exact Hc|].
        rewrite Hkeep by lia. apply list_lookup_insert_eq.
        apply lookup_lt_Some in Hc. exact Hc.
      * destruct (Hset k v Hk) as (c' & Hc' & Hr).
        replace (i + S k) with (S i + k) by lia.
        rewrite list_lookup_insert_ne in Hc' by lia. eauto.
    + intros j Hj. rewrite Hkeep by lia. apply list_lookup_insert_ne. lia.
Qed.

Lemma assign_values_overflow (cell_values : list string) : ∀ (cell_list : list Cell) i w,
  i ≤ length cell_list →
  length cell_list < i + length cell_values →
  assign_values cell_list i cell_values w = (Raise IndexError, w).
Proof.
  induction cell_values as [|val rest IH]; intros cell_list i w Hi Hlen; simpl in *.
  - lia.
  - unfold bind, set_value.
    destruct (cell_list !! i) as [c|] eqn:Hc; [|reflexivity].
    unfold ret at 1. apply lookup_lt_Some in Hc.
    apply IH; rewrite length_insert; lia.
Qed.

(** X18: lines 90-93 after a fetch, on an existing worksheet: with no
    more values than cells, the cells go back in one [update_cells]
    request, the first ones with the new values in order and the others as
    they were fetched. *)
Lemma write_back_fits worksheet cell_list cell_values w :
  worksheet ∈ ws_title <$> w_sheet w →
  length cell_values ≤ length cell_list →
  ∃ r w', write_back worksheet cell_list cell_values w = (Ok tt, w')
    ∧ w_calls w' = w_calls w ++ [ShWorksheet worksheet; WsUpdateCells worksheet r]
    ∧ length r = length cell_list
    ∧ (∀ k v, cell_values !! k = Some v →
         ∃ c, cell_list !! k = Some c
           ∧ r !! k = Some (mkCell (cell_row c) (cell_col c) v))
    ∧ (∀ j, length cell_values ≤ j → r !! j = cell_list !! j).
Proof.
  intros Hin Hlen. destruct (title_found _ _ Hin) as (i & ws & Hfind).
  pose proof Hfind as (Hi & Ht & _)%list_find_Some.
  destruct (assign_values_fits cell_values cell_list 0 w)
    as (r & Hrun & Hlr & Hset & Hkeep); [simpl; lia|].
  unfold write_back, bind. rewrite Hrun.
  rewrite (sheet_worksheet_found _ _ _ _ Hfind).
  rewrite (ws_update_cells_run _ _ _ ws) by exact Hi.
  exists r. eexists. split; [reflexivity|]. simpl.
  rewrite <- app_assoc. repeat split; [exact Hlr|exact Hset|].
  intros j Hj. apply Hkeep. simpl. lia.
Qed.

(** Lines 90-93 after a fetch: with more values than cells, the loop
    raises IndexError and nothing is sent. *)
Lemma write_back_overflow worksheet cell_list cell_values w :
  length cell_list < length cell_values →
  write_back worksheet cell_list cell_values w = (Raise IndexError, w).
Proof.
  intros Hlen. unfold write_back, bind.
  rewrite assign_values_overflow by (simpl; lia). reflexivity.
Qed.

(** ** [extract_data] *)

Lemma to_sql_run df name mode w :
  to_sql df name mode w =
    ((db_to_sql df name mode (w_db w)).1,
     set_db (db_to_sql df name mode (w_db w)).2 (add_call (DbToSql name (df_rows df) mode) w)).
Proof.
  unfold to_sql. run. destruct (db_to_sql df name mode (w_db w)); reflexivity.
Qed.

(** The body of the loop on a listed title: it stops with IndexError at
    [get_all_records] when the worksheet holds no value, and goes on to
    its [if] otherwise. *)
Lemma extract_worksheet_run h w :
  h_title h ∈ ws_title <$> w_sheet w →
  extract_worksheet h w =
    match values_named (h_title h) (w_sheet w) with
    | [] => (Raise IndexError, fetching (h_title h) w)
    | _ :: _ =>
        let records := records_named (h_title h) (w_sheet w) in
        let w1 := after_fetch (h_title h) (length records) w in
        if decide (length records = 0) then (Ok tt, w1)
        else to_sql (pd_DataFrame records) (h_title h) IfExistsAppend w1
    end.
Proof.
  intros Hin. destruct (title_found _ _ Hin) as (i & ws & Hfind).
  pose proof Hfind as (Hi & Ht & _)%list_find_Some.
  unfold values_named, records_named, worksheet_named. rewrite Hfind. simpl.
  unfold extract_worksheet, bind at 1, logger_info at 1, modify at 1.
  unfold bind at 1. erewrite sheet_worksheet_found by exact Hfind.
  unfold bind at 1, ws_get_all_records, deref. run. rewrite Hi.
  destruct (get_all_values (ws_cells ws)) as [|keys rows] eqn:Hvalues;
    [reflexivity|].
  unfold df_index. simpl. rewrite length_seq.
  destruct (decide _); reflexivity.
Qed.

Lemma for_each_invariant {A} (I : World → Prop) (body : A → M unit) (l : list A) :
  (∀ x w, x ∈ l → I w → I (body x w).2) →
  ∀ w, I w → I (for_each l body w).2.
Proof.
  induction l as [|x l IH]; intros Hstep w Hw; simpl; [exact Hw|].
  unfold bind. pose proof (Hstep x w (list_elem_of_here _ _) Hw) as Hx.
  destruct (body x w) as [[[]|e] w1]; simpl in *; [|exact Hx].
  apply IH; [|exact Hx].
  intros y w2 Hy. apply Hstep. apply list_elem_of_further, Hy.
Qed.

(** What a [to_sql] in append mode does to the tables, accepted or
    refused. *)
Lemma db_to_sql_append_other df name db t :
  t ≠ name → (db_to_sql df name IfExistsAppend db).2 !! t = db !! t.
Proof.
  intros Hne. unfold db_to_sql.
  destruct (to_sql_refusal df name IfExistsAppend db) as [[e []]|];
    destruct (db !! name) as [tb|]; simpl;
    rewrite ?lookup_insert_ne by congruence; reflexivity.
Qed.

Lemma db_to_sql_append_prefix df name db t :
  table_rows db t `prefix_of` table_rows (db_to_sql df name IfExistsAppend db).2 t.
Proof.
  destruct (decide (t = name)) as [->|Hne].
  - unfold table_rows, db_to_sql.
    destruct (to_sql_refusal df name IfExistsAppend db) as [[e []]|];
      destruct (db !! name) as [tb|] eqn:Hname; simpl;
      rewrite ?lookup_insert_eq, ?Hname; simpl;
      try reflexivity; try apply prefix_nil.
    apply prefix_app_r. reflexivity.
  - unfold table_rows. rewrite db_to_sql_append_other by exact Hne. reflexivity.
Qed.

Lemma db_to_sql_append_columns df name db t tb :
  db !! t = Some tb →
  ∃ tb', (db_to_sql df name IfExistsAppend db).2 !! t = Some tb'
    ∧ tbl_columns tb' = tbl_columns tb.
Proof.
  intros Ht. destruct (decide (t = name)) as [->|Hne].
  - unfold db_to_sql. rewrite Ht.
    destruct (to_sql_refusal df name IfExistsAppend db) as [[e b]|]; simpl.
    + eauto.
    + rewrite lookup_insert_eq. eauto.
  - rewrite db_to_sql_append_other by exact Hne. eauto.
Qed.

Lemma db_to_sql_append_ok df name db :
  (db_to_sql df name IfExistsAppend db).1 = Ok tt →
  table_rows (db_to_sql df name IfExistsAppend db).2 name = table_rows db name ++ df_rows df
  ∧ ∃ tb', (db_to_sql df name IfExistsAppend db).2 !! name = Some tb'
      ∧ (db !! name = None → tbl_columns tb' = df_columns df).
Proof.
  unfold table_rows, db_to_sql.
  destruct (to_sql_refusal df name IfExistsAppend db) as [[e b]|]; [discriminate|].
  destruct (db !! name) as [tb|] eqn:Hname; simpl; intros _;
    rewrite lookup_insert_eq; simpl; split; try reflexivity;
    eexists; (split; [reflexivity|]); [discriminate|reflexivity].
Qed.

Lemma extract_data_run w :
  extract_data w =
    let w0 := add_log (mkLog INFO "Extracting mappings from Google sheet." [])
                (add_call ShWorksheets w) in
    let loop := for_each (imap (λ i ws, mkHandle i (ws_title ws)) (w_sheet w))
                  extract_worksheet w0 in
    match loop.1 with
    | Ok _ =>
        (Ok tt, add_log (mkLog INFO "Mappings were successfully extracted from google sheets." [])
                  loop.2)
    | Raise e => (Raise e, loop.2)
    end.
Proof.
  unfold extract_data, bind. rewrite sheet_worksheets_run. simpl.
  destruct (for_each _ _ _) as [[[]|e] w']; reflexivity.
Qed.

Lemma handle_listed (s : list Worksheet) h :
  h ∈ imap (λ i ws, mkHandle i (ws_title ws)) s → h_title h ∈ ws_title <$> s.
Proof.
  intros Hh. rewrite <- handles_titles. apply list_elem_of_fmap. eauto.
Qed.

(** The loop of [extract_data] keeps the spreadsheet, and keeps every
    property of the database and of the calls that a [to_sql] in append
    mode keeps, accepted or refused. *)
Lemma extract_loop_invariant (Rdb : gmap string Table → Prop) (P : call → bool)
    (s : list Worksheet) (L : list Handle) :
  (∀ h, h ∈ L → h_title h ∈ ws_title <$> s) →
  (∀ t, P (ShWorksheet t) = true ∧ P (WsGetAllRecords t) = true) →
  (∀ h db, h ∈ L → Rdb db → records_named (h_title h) s ≠ [] →
     Rdb (db_to_sql (pd_DataFrame (records_named (h_title h) s)) (h_title h)
            IfExistsAppend db).2
     ∧ P (DbToSql (h_title h) (records_named (h_title h) s) IfExistsAppend) = true) →
  ∀ w, w_sheet w = s → Rdb (w_db w) →
    w_sheet (for_each L extract_worksheet w).2 = s
    ∧ Rdb (w_db (for_each L extract_worksheet w).2)
    ∧ ∃ added, w_calls (for_each L extract_worksheet w).2 = w_calls w ++ added
        ∧ Forall (λ c, P c = true) added.
Proof.
  intros Hlisted Hreads Happend w Hs Hdb.
  apply (for_each_invariant
    (λ w', w_sheet w' = s ∧ Rdb (w_db w')
           ∧ ∃ added, w_calls w' = w_calls w ++ added ∧ Forall (λ c, P c = true) added)).
  - intros h w1 Hh (Hs1 & Hdb1 & added & Hcalls & Hadded).
    rewrite extract_worksheet_run by (rewrite Hs1; auto).
    rewrite Hs1. destruct (Hreads (h_title h)) as [Hp1 Hp2].
    assert (Forall (λ c, P c = true)
              (added ++ [ShWorksheet (h_title h); WsGetAllRecords (h_title h)])) as Hfetch.
    { apply Forall_app. split; [exact Hadded|]. repeat constructor; assumption. }
    destruct (values_named (h_title h) s) as [|keys rows]; simpl.
    { split; [exact Hs1|]. split; [exact Hdb1|].
      exists (added ++ [ShWorksheet (h_title h); WsGetAllRecords (h_title h)]).
      rewrite Hcalls, <- !app_assoc. split; [reflexivity|exact Hfetch]. }
    destruct (decide (length (records_named (h_title h) s) = 0)) as [Hz|Hnz]; simpl.
    + split; [exact Hs1|]. split; [exact Hdb1|].
      exists (added ++ [ShWorksheet (h_title h); WsGetAllRecords (h_title h)]).
      rewrite Hcalls, <- !app_assoc. split; [reflexivity|exact Hfetch].
    + rewrite to_sql_run. simpl.
      destruct (Happend h (w_db w1) Hh Hdb1) as [Hdb2 Hp3].
      { intros Hnil. rewrite Hnil in Hnz. apply Hnz. reflexivity. }
      split; [exact Hs1|]. split; [exact Hdb2|].
      exists (added ++ [ShWorksheet (h_title h); WsGetAllRecords (h_title h);
                        DbToSql (h_title h) (records_named (h_title h) s) IfExistsAppend]).
      rewrite Hcalls, <- !app_assoc. split; [reflexivity|].
      apply Forall_app. split; [exact Hadded|]. repeat constructor; assumption.
  - split; [exact Hs|]. split; [exact Hdb|]. exists [].
    rewrite app_nil_r. split; [reflexivity|constructor].
Qed.

Lemma extract_data_invariant (Rdb : gmap string Table → Prop) (P : call → bool) w :
  P ShWorksheets = true →
  (∀ t, P (ShWorksheet t) = true ∧ P (WsGetAllRecords t) = true) →
  (∀ t db, t ∈ ws_title <$> w_sheet w → Rdb db → records_named t (w_sheet w) ≠ [] →
     Rdb (db_to_sql (pd_DataFrame (records_named t (w_sheet w))) t IfExistsAppend db).2
     ∧ P (DbToSql t (records_named t (w_sheet w)) IfExistsAppend) = true) →
  Rdb (w_db w) →
  w_sheet (extract_data w).2 = w_sheet w
  ∧ Rdb (w_db (extract_data w).2)
  ∧ Forall (λ c, P c = true) (calls_since (length (w_calls w)) (extract_data w).2).
Proof.
  intros Hp0 Hreads Happend Hdb.
  destruct (extract_loop_invariant Rdb P (w_sheet w)
              (imap (λ i ws, mkHandle i (ws_title ws)) (w_sheet w))
              (handle_listed _) Hreads
              (λ h db Hh, Happend (h_title h) db (handle_listed _ _ Hh))
              (add_log (mkLog INFO "Extracting mappings from Google sheet." [])
                 (add_call ShWorksheets w)) eq_refl Hdb)
    as (Hs & Hdb' & added & Hcalls & Hadded).
  rewrite extract_data_run. simpl. unfold calls_since.
  destruct (for_each _ _ _) as [[[]|e] w']; simpl in *;
    (split; [exact Hs|]); (split; [exact Hdb'|]);
    rewrite Hcalls, <- app_assoc, drop_app_length;
    constructor; assumption.
Qed.

(** C10: whatever the outcome of [extract_data], every table keeps the
    rows it had, in place and in order, as the first rows of what it holds
    afterwards, and keeps its columns; the only calls on the database
    connection are [to_sql] calls in append mode. *)
Theorem extract_data_only_appends w :
  (∀ t, table_rows (w_db w) t `prefix_of` table_rows (w_db (extract_data w).2) t)
  ∧ (∀ t tb, w_db w !! t = Some tb →
       ∃ tb', w_db (extract_data w).2 !! t = Some tb'
         ∧ tbl_columns tb' = tbl_columns tb)
  ∧ Forall (λ c, is_append_or_read c = true)
      (calls_since (length (w_calls w)) (extract_data w).2).
Proof.
  destruct (extract_data_invariant
    (λ db, (∀ t, table_rows (w_db w) t `prefix_of` table_rows db t)
           ∧ (∀ t tb, w_db w !! t = Some tb →
                ∃ tb', db !! t = Some tb' ∧ tbl_columns tb' = tbl_columns tb))
    is_append_or_read w) as (_ & [Hrows Hcols] & Hcalls).
  - reflexivity.
  - intros t. split; reflexivity.
  - intros t db _ [Hrows Hcols] _. split; [split|reflexivity].
    + intros t'. etransitivity; [apply Hrows|]. apply db_to_sql_append_prefix.
    + intros t' tb Htb. destruct (Hcols t' tb Htb) as (tb1 & Htb1 & Hc1).
      destruct (db_to_sql_append_columns
                  (pd_DataFrame (records_named t (w_sheet w))) t db t' tb1 Htb1)
        as (tb2 & Htb2 & Hc2).
      exists tb2. split; [exact Htb2|congruence].
  - split; [reflexivity|eauto].
  - auto.
Qed.

Lemma extract_worksheet_log h w :
  h_title h ∈ ws_title <$> w_sheet w →
  w_sheet (extract_worksheet h w).2 = w_sheet w
  ∧ match values_named (h_title h) (w_sheet w) with
    | [] =>
        (extract_worksheet h w).1 = Raise IndexError
        ∧ w_log (extract_worksheet h w).2
          = w_log w ++ [mkLog INFO "Extracting %s" [h_title h]]
    | _ :: _ =>
        w_log (extract_worksheet h w).2
        = w_log w ++ [mkLog INFO "Extracting %s" [h_title h];
                      mkLog INFO "%s %s extracted"
                        [pretty (length (records_named (h_title h) (w_sheet w)));
                         h_title h]]
    end.
Proof.
  intros Hin. rewrite extract_worksheet_run by exact Hin.
  destruct (values_named (h_title h) (w_sheet w)) as [|keys rows]; simpl.
  - repeat split.
  - destruct (decide _); [|rewrite to_sql_run]; simpl;
      rewrite <- app_assoc; split; reflexivity.
Qed.

(** The loop only adds to the log, and when it ends normally it has
    logged the count of every worksheet it was given. *)
Lemma extract_loop_logs (s : list Worksheet) (L : list Handle) :
  (∀ h, h ∈ L → h_title h ∈ ws_title <$> s) →
  ∀ w, w_sheet w = s →
    (∀ entry, entry ∈ w_log w → entry ∈ w_log (for_each L extract_worksheet w).2)
    ∧ ((for_each L extract_worksheet w).1 = Ok tt →
       ∀ h, h ∈ L →
         mkLog INFO "%s %s extracted" [pretty (length (records_named (h_title h) s)); h_title h]
           ∈ w_log (for_each L extract_worksheet w).2).
Proof.
  induction L as [|x L IH]; intros Hlisted w Hs; simpl.
  - split; [auto|]. intros _ h Hh. apply elem_of_nil in Hh. contradiction.
  - unfold bind.
    destruct (extract_worksheet_log x w) as [Hs1 Hlog1].
    { rewrite Hs. apply Hlisted. left. }
    rewrite Hs in Hlog1.
    destruct (extract_worksheet x w) as [[[]|e] w1]; simpl in *.
    + destruct (values_named (h_title x) s) as [|keys rows];
        [destruct Hlog1 as [Hraise _]; discriminate|].
      destruct (IH (λ h Hh, Hlisted h (list_elem_of_further _ _ _ Hh)) w1)
        as [Hmono Hall]; [congruence|].
      split.
      * intros entry Hentry. apply Hmono. rewrite Hlog1.
        apply elem_of_app. left. exact Hentry.
      * intros Hok h Hh. apply elem_of_cons in Hh as [->|Hh]; [|auto].
        apply Hmono. rewrite Hlog1. apply elem_of_app. right.
        right. left.
    + split; [|discriminate].
      intros entry Hentry.
      destruct (values_named (h_title x) s) as [|keys rows];
        [destruct Hlog1 as [_ Hlog1]|]; rewrite Hlog1;
        apply elem_of_app; left; exact Hentry.
Qed.

(** C1: for a title whose worksheet has zero records, [extract_data]
    leaves the database entry of that title as it was (absent stays
    absent, a table stays the same table) and makes no [to_sql] call on
    that name, whatever the other worksheets hold; when the extraction
    ends normally the log holds the entry of that worksheet with the
    count 0. *)
Theorem extract_data_skips_empty_worksheet w title ws :
  worksheet_named title (w_sheet w) = Some ws →
  get_all_records (ws_cells ws) = [] →
  w_db (extract_data w).2 !! title = w_db w !! title
  ∧ Forall (λ c, is_to_sql_on title c = false)
      (calls_since (length (w_calls w)) (extract_data w).2)
  ∧ ((extract_data w).1 = Ok tt →
       mkLog INFO "%s %s extracted" ["0"; title] ∈ w_log (extract_data w).2).
Proof.
  intros Hnamed Hempty.
  assert (records_named title (w_sheet w) = []) as Hnone.
  { unfold records_named. rewrite Hnamed. exact Hempty. }
  destruct (extract_data_invariant
    (λ db, db !! title = w_db w !! title)
    (λ c, negb (is_to_sql_on title c)) w) as (_ & Hdb & Hcalls).
  - reflexivity.
  - intros t. split; reflexivity.
  - intros t db _ Hdb Hrec.
    assert (t ≠ title) as Hne by (intros ->; contradiction).
    split.
    + rewrite db_to_sql_append_other by congruence. exact Hdb.
    + simpl. rewrite bool_decide_eq_false_2 by exact Hne. reflexivity.
  - reflexivity.
  - split; [exact Hdb|]. split.
    { eapply Forall_impl; [exact Hcalls|]. simpl.
      intros c Hc. apply negb_true_iff in Hc. exact Hc. }
    rewrite extract_data_run. simpl.
    destruct (extract_loop_logs (w_sheet w)
                (imap (λ i ws, mkHandle i (ws_title ws)) (w_sheet w))
                (handle_listed _)
                (add_log (mkLog INFO "Extracting mappings from Google sheet." [])
                   (add_call ShWorksheets w)) eq_refl) as [_ Hall].
    destruct (for_each _ _ _) as [[[]|e] w']; simpl in *; [|discriminate].
    intros _. apply elem_of_app. left.
    assert (title ∈ ws_title <$> w_sheet w) as Hin.
    { unfold worksheet_named in Hnamed.
      destruct (list_find _ _) as [[i ws']|] eqn:Hfind; [|discriminate].
      apply list_find_Some in Hfind as (Hi & Ht & _). rewrite <- Ht.
      apply list_elem_of_fmap. exists ws'. split; [reflexivity|].
      apply list_elem_of_lookup. eauto. }
    rewrite <- handles_titles in Hin.
    apply list_elem_of_fmap in Hin as (h & -> & Hh).
    specialize (Hall eq_refl h Hh). rewrite Hnone in Hall. exact Hall.
Qed.





Lemma records_named_listed t (s : list Worksheet) :
  records_named t s ≠ [] → t ∈ ws_title <$> s.
Proof.
  unfold records_named, worksheet_named. intros Hrec.
  destruct (list_find _ s) as [[i ws]|] eqn:Hfind; simpl in Hrec; [|congruence].
  apply list_find_Some in Hfind as (Hi & Ht & _). rewrite <- Ht.
  apply list_elem_of_fmap. exists ws. split; [reflexivity|].
  apply list_elem_of_lookup. eauto.
Qed.






Lemma extract_loop_files (s : list Worksheet) (L : list Handle) :
  (∀ h, h ∈ L → h_title h ∈ ws_title <$> s) →
  ∀ w, w_sheet w = s →
    w_fs (for_each L extract_worksheet w).2 = w_fs w.
Proof.
  intros Hlisted w Hs.
  apply (for_each_invariant (λ w', w_sheet w' = s ∧ w_fs w' = w_fs w)); [|auto].
  intros h w1 Hh [Hs1 Hfs1].
  rewrite extract_worksheet_run by (rewrite Hs1; auto).
  destruct (values_named (h_title h) (w_sheet w1)); simpl; [auto|].
  destruct (decide _); [|rewrite to_sql_run]; simpl; auto.
Qed.

(** X2: [extract_data] only reads the spreadsheet: whatever its outcome,
    the worksheets and the files are as before, and none of the requests
    it makes writes to the spreadsheet. *)
Theorem extract_data_reads_only_the_sheet w :
  w_sheet (extract_data w).2 = w_sheet w
  ∧ w_fs (extract_data w).2 = w_fs w
  ∧ Forall (λ c, is_sheet_write c = false)
      (calls_since (length (w_calls w)) (extract_data w).2).
Proof.
  destruct (extract_data_invariant (λ _, True) (λ c, negb (is_sheet_write c)) w)
    as (Hs & _ & Hcalls); try reflexivity.
  { intros t. split; reflexivity. }
  { intros t db _ _ _. split; [exact I|reflexivity]. }
  split; [exact Hs|]. split.
  - rewrite extract_data_run. simpl.
    pose proof (extract_loop_files (w_sheet w)
                  (imap (λ i ws, mkHandle i (ws_title ws)) (w_sheet w)) (handle_listed _)
                  (add_log (mkLog INFO "Extracting mappings from Google sheet." [])
                     (add_call ShWorksheets w)) eq_refl) as Hfs.
    destruct (for_each _ _ _) as [[[]|e] w']; exact Hfs.
  - eapply Forall_impl; [exact Hcalls|]. simpl.
    intros c Hc. apply negb_true_iff in Hc. exact Hc.
Qed.

(** X3: a table whose name is not the title of a worksheet is left as it
    was by [extract_data] (absent stays absent), and no [to_sql] call is
    made on that name, whatever the outcome. *)
Theorem extract_data_keeps_unrelated_tables w name :
  name ∉ ws_title <$> w_sheet w →
  w_db (extract_data w).2 !! name = w_db w !! name
  ∧ Forall (λ c, is_to_sql_on name c = false)
      (calls_since (length (w_calls w)) (extract_data w).2).
Proof.
  intros Hnot.
  destruct (extract_data_invariant
    (λ db, db !! name = w_db w !! name)
    (λ c, negb (is_to_sql_on name c)) w) as (_ & Hdb & Hcalls); try reflexivity.
  - intros t. split; reflexivity.
  - intros t db Ht Hdb _.
    assert (t ≠ name) as Hne by (intros ->; contradiction).
    split.
    + rewrite db_to_sql_append_other by congruence. exact Hdb.
    + simpl. rewrite bool_decide_eq_false_2 by exact Hne. reflexivity.
  - split; [exact Hdb|].
    eapply Forall_impl; [exact Hcalls|]. simpl.
    intros c Hc. apply negb_true_iff in Hc. exact Hc.
Qed.

(** The [to_sql] calls of the loop are the first of those expected for
    its titles, in order, and all of them when the loop ends normally. *)
Lemma extract_loop_appends_in_order (s : list Worksheet) (L : list Handle) :
  (∀ h, h ∈ L → h_title h ∈ ws_title <$> s) →
  ∀ w, w_sheet w = s →
  ∃ added, w_calls (for_each L extract_worksheet w).2 = w_calls w ++ added
    ∧ filter (λ c, is_db_call c = true) added
        `prefix_of` expected_appends s (h_title <$> L)
    ∧ ((for_each L extract_worksheet w).1 = Ok tt →
       filter (λ c, is_db_call c = true) added = expected_appends s (h_title <$> L)).
Proof.
  induction L as [|x L IH]; intros Hlisted w Hs; simpl.
  - exists []. rewrite app_nil_r. repeat split. reflexivity.
  - assert (∀ h, h ∈ L → h_title h ∈ ws_title <$> s) as Hlisted'
      by (intros h Hh; apply Hlisted; right; exact Hh).
    unfold bind. rewrite extract_worksheet_run by (rewrite Hs; apply Hlisted; left).
    rewrite Hs. unfold expected_appends. simpl.
    destruct (values_named (h_title x) s) as [|keys rows] eqn:Hvalues.
    { exists [ShWorksheet (h_title x); WsGetAllRecords (h_title x)].
      simpl. rewrite <- !app_assoc. split; [reflexivity|].
      rewrite !filter_cons_False by (simpl; discriminate).
      split; [apply prefix_nil|discriminate]. }
    simpl.
    destruct (decide (length (records_named (h_title x) s) = 0)) as [Hz|Hnz].
    + destruct (IH Hlisted'
                  (after_fetch (h_title x) (length (records_named (h_title x) s)) w) Hs)
        as (added & Hcalls & Hprefix & Hall).
      exists ([ShWorksheet (h_title x); WsGetAllRecords (h_title x)] ++ added).
      rewrite Hcalls. simpl. rewrite <- !app_assoc. split; [reflexivity|].
      simpl. rewrite !filter_cons_False by (simpl; discriminate).
      split; assumption.
    + rewrite to_sql_run. simpl.
      destruct (db_to_sql (pd_DataFrame (records_named (h_title x) s)) (h_title x)
                  IfExistsAppend (w_db w)) as [[[]|e] db1]; simpl.
      * destruct (IH Hlisted'
          (set_db db1
             (add_call (DbToSql (h_title x) (records_named (h_title x) s) IfExistsAppend)
                (after_fetch (h_title x) (length (records_named (h_title x) s)) w))) Hs)
          as (added & Hcalls & Hprefix & Hall).
        exists ([ShWorksheet (h_title x); WsGetAllRecords (h_title x);
                 DbToSql (h_title x) (records_named (h_title x) s) IfExistsAppend]
                ++ added).
        rewrite Hcalls. simpl. rewrite <- !app_assoc. split; [reflexivity|].
        simpl. rewrite !filter_cons_False by (simpl; discriminate).
        rewrite filter_cons_True by reflexivity.
        split; [apply prefix_cons, Hprefix|].
        intros Hok. f_equal. apply Hall, Hok.
      * exists [ShWorksheet (h_title x); WsGetAllRecords (h_title x);
                DbToSql (h_title x) (records_named (h_title x) s) IfExistsAppend].
        simpl. rewrite <- !app_assoc. split; [reflexivity|].
        simpl. rewrite !filter_cons_False by (simpl; discriminate).
        rewrite filter_cons_True by reflexivity.
        split; [apply prefix_cons, prefix_nil|discriminate].
Qed.

(** X4: the calls that [extract_data] makes on the database connection
    are [to_sql] calls in append mode, one per worksheet that has
    records, with the records of that worksheet, in the order of the
    worksheet listing: when it returns normally every such worksheet has
    had its call, and when it raises the calls made are the first of that
    list. *)
Theorem extract_data_appends_in_listing_order w :
  filter (λ c, is_db_call c = true)
    (calls_since (length (w_calls w)) (extract_data w).2)
    `prefix_of` expected_appends (w_sheet w) (ws_title <$> w_sheet w)
  ∧ ((extract_data w).1 = Ok tt →
     filter (λ c, is_db_call c = true)
       (calls_since (length (w_calls w)) (extract_data w).2)
     = expected_appends (w_sheet w) (ws_title <$> w_sheet w)).
Proof.
  destruct (extract_loop_appends_in_order (w_sheet w)
              (imap (λ i ws, mkHandle i (ws_title ws)) (w_sheet w)) (handle_listed _)
              (add_log (mkLog INFO "Extracting mappings from Google sheet." [])
                 (add_call ShWorksheets w)) eq_refl)
    as (added & Hcalls & Hprefix & Hall).
  rewrite handles_titles in Hprefix, Hall.
  rewrite extract_data_run. unfold calls_since. simpl in *.
  destruct (for_each _ _ _) as [[[]|e] w']; simpl in *;
    rewrite Hcalls, <- app_assoc, drop_app_length; simpl;
    rewrite filter_cons_False by (simpl; discriminate);
    (split; [exact Hprefix|]); [intros _; apply Hall; reflexivity|discriminate].
Qed.



(** ** More on [create_worksheet] and [clear_worksheet] *)

Lemma worksheet_named_cons t ws (s : list Worksheet) :
  worksheet_named t (ws :: s)
  = if decide (ws_title ws = t) then Some ws else worksheet_named t s.
Proof.
  unfold worksheet_named. simpl.
  destruct (decide (ws_title ws = t)); [reflexivity|].
  destruct (list_find _ s) as [[i ws']|]; reflexivity.
Qed.

Lemma worksheet_named_app t (s l : list Worksheet) :
  worksheet_named t (s ++ l)
  = match worksheet_named t s with
    | Some ws => Some ws
    | None => worksheet_named t l
    end.
Proof.
  induction s as [|ws s IH]; [reflexivity|].
  rewrite <- app_comm_cons, !worksheet_named_cons.
  destruct (decide _); [reflexivity|exact IH].
Qed.

Lemma worksheet_named_None t (s : list Worksheet) :
  t ∉ ws_title <$> s → worksheet_named t s = None.
Proof.
  induction s as [|ws s IH]; intros Hnot; [reflexivity|].
  rewrite worksheet_named_cons. rewrite fmap_cons in Hnot.
  apply not_elem_of_cons in Hnot as [Hne Hnot].
  destruct (decide _); [congruence|auto].
Qed.

Lemma get_all_records_empty : get_all_records ∅ = [].
Proof. reflexivity. Qed.

(** [extract_data] passes over every title that gives no records. *)
Lemma extract_data_passes_over w title :
  records_named title (w_sheet w) = [] →
  w_db (extract_data w).2 !! title = w_db w !! title.
Proof.
  intros Hnone.
  destruct (extract_data_invariant
    (λ db, db !! title = w_db w !! title) (λ _, true) w) as (_ & Hdb & _);
    try reflexivity; [intros t; split; reflexivity| |exact Hdb].
  intros t db _ Hdb Hrec.
  assert (t ≠ title) as Hne by (intros ->; contradiction).
  split; [|reflexivity].
  rewrite db_to_sql_append_other by congruence. exact Hdb.
Qed.

(** X6: for a title that no worksheet has, [create_worksheet] returns
    normally and adds one worksheet at the end of the listing, with that
    title and no value; every title that resolved before resolves to the
    same worksheet, the database is as before, and the log gains the two
    progress entries. *)
Theorem create_worksheet_adds_empty_worksheet title w :
  title ∉ ws_title <$> w_sheet w →
  ∃ w', create_worksheet title w = (Ok tt, w')
    ∧ w_sheet w' = w_sheet w ++ [mkWorksheet title ∅]
    ∧ worksheet_named title (w_sheet w') = Some (mkWorksheet title ∅)
    ∧ (∀ t, t ≠ title →
         worksheet_named t (w_sheet w') = worksheet_named t (w_sheet w))
    ∧ w_db w' = w_db w
    ∧ w_log w' = w_log w ++ [mkLog INFO "Creating Worksheet" [];
                             mkLog INFO "Worksheet created" []].
Proof.
  intros Hnot.
  destruct (create_worksheet_new_title title w Hnot)
    as (w' & Hrun & Hs & Hdb & Hlog & _).
  exists w'. split; [exact Hrun|]. split; [exact Hs|]. rewrite Hs.
  split; [|split; [|split; assumption]].
  - rewrite worksheet_named_app, (worksheet_named_None _ _ Hnot).
    rewrite worksheet_named_cons. simpl.
    destruct (decide (title = title)); [reflexivity|congruence].
  - intros t Hne. rewrite worksheet_named_app.
    destruct (worksheet_named t (w_sheet w)); [reflexivity|].
    rewrite worksheet_named_cons. simpl.
    destruct (decide (title = t)); [congruence|reflexivity].
Qed.

(** X8: [create_worksheet] always returns normally, and after it the
    title is in the listing; a second call with the same title changes
    nothing in the spreadsheet and adds the error entry to the log. *)
Theorem create_worksheet_twice title w :
  (create_worksheet title w).1 = Ok tt
  ∧ title ∈ ws_title <$> w_sheet (create_worksheet title w).2
  ∧ create_worksheet title (create_worksheet title w).2
    = (Ok tt, add_log (mkLog ERROR "Worksheet '%s' already exists" [title])
                (add_call ShWorksheets (create_worksheet title w).2)).
Proof.
  assert ((create_worksheet title w).1 = Ok tt
          ∧ title ∈ ws_title <$> w_sheet (create_worksheet title w).2) as [Hok Hin].
  { destruct (decide (title ∈ ws_title <$> w_sheet w)) as [Hin|Hnot].
    - rewrite create_worksheet_existing_run by exact Hin. split; [reflexivity|exact Hin].
    - destruct (create_worksheet_new_title title w Hnot) as (w' & -> & Hs & _).
      split; [reflexivity|]. simpl. rewrite Hs, fmap_app.
      apply elem_of_app. right. simpl. left. }
  split; [exact Hok|]. split; [exact Hin|].
  apply create_worksheet_existing_run, Hin.
Qed.

(** X9: a worksheet that [create_worksheet] has just added holds no
    record, so an [extract_data] that follows makes no table for it: the
    database entry of that title is the one before the two calls. *)
Theorem create_worksheet_then_extract_data title w :
  title ∉ ws_title <$> w_sheet w →
  w_db (extract_data (create_worksheet title w).2).2 !! title = w_db w !! title.
Proof.
  intros Hnot.
  destruct (create_worksheet_new_title title w Hnot) as (w' & -> & Hs & Hdb & _).
  simpl. rewrite <- Hdb. apply extract_data_passes_over.
  unfold records_named. rewrite Hs, worksheet_named_app.
  rewrite (worksheet_named_None _ _ Hnot), worksheet_named_cons. simpl.
  destruct (decide (title = title)); [reflexivity|congruence].
Qed.

Lemma clear_worksheet_run title w i ws :
  list_find (λ ws, ws_title ws = title) (w_sheet w) = Some (i, ws) →
  clear_worksheet title w
  = (Ok tt, set_sheet (update_worksheet i (λ _, ∅) (w_sheet w))
              (add_call (WsClear title) (add_call (ShWorksheet title) w))).
Proof.
  intros Hfind. pose proof Hfind as (Hi & _ & _)%list_find_Some.
  unfold clear_worksheet, bind.
  rewrite (sheet_worksheet_found _ _ _ _ Hfind).
  rewrite (ws_clear_run _ _ ws) by exact Hi. reflexivity.
Qed.

Lemma update_cell_run title cell new_value rc w i ws :
  list_find (λ ws, ws_title ws = title) (w_sheet w) = Some (i, ws) →
  a1_to_rowcol cell = Some rc →
  update_cell title cell new_value w
  = (Ok tt, set_sheet (update_worksheet i (insert rc new_value) (w_sheet w))
              (add_call (WsUpdateAcell title cell new_value)
                 (add_call (ShWorksheet title) w))).
Proof.
  intros Hfind Hrc. pose proof Hfind as (Hi & _ & _)%list_find_Some.
  unfold update_cell, bind.
  rewrite (sheet_worksheet_found _ _ _ _ Hfind).
  rewrite (ws_update_acell_run _ _ _ _ rc ws) by assumption. reflexivity.
Qed.

Lemma update_cell_bad_label title cell new_value w :
  title ∈ ws_title <$> w_sheet w →
  a1_to_rowcol cell = None →
  update_cell title cell new_value w
  = (Raise IncorrectCellLabel,
     add_call (WsUpdateAcell title cell new_value) (add_call (ShWorksheet title) w)).
Proof.
  intros Hin Hrc. destruct (title_found _ _ Hin) as (i & ws & Hfind).
  unfold update_cell, bind. rewrite (sheet_worksheet_found _ _ _ _ Hfind).
  unfold ws_update_acell. run. rewrite Hrc. reflexivity.
Qed.

Lemma read_cell_run title cell rc w i ws :
  list_find (λ ws, ws_title ws = title) (w_sheet w) = Some (i, ws) →
  a1_to_rowcol cell = Some rc →
  read_cell title cell w
  = (Ok (cell_at (ws_cells ws) rc.1 rc.2),
     add_call (WsAcell title cell) (add_call (ShWorksheet title) w)).
Proof.
  intros Hfind Hrc. pose proof Hfind as (Hi & _ & _)%list_find_Some.
  unfold read_cell, bind.
  rewrite (sheet_worksheet_found _ _ _ _ Hfind).
  rewrite (ws_acell_run _ _ _ rc ws) by assumption. reflexivity.
Qed.

Lemma list_find_updated t i f (s : list Worksheet) ws :
  list_find (λ ws, ws_title ws = t) s = Some (i, ws) →
  list_find (λ ws, ws_title ws = t) (update_worksheet i f s) = Some (i, updated f ws).
Proof.
  intros Hfind. rewrite list_find_update_worksheet, Hfind. simpl.
  destruct (decide (i = i)); [reflexivity|congruence].
Qed.

(** X10: after [clear_worksheet] on an existing worksheet, a read of any
    cell of that worksheet that the client can address gives the empty
    string. *)
Theorem clear_worksheet_then_read title cell rc w :
  title ∈ ws_title <$> w_sheet w →
  a1_to_rowcol cell = Some rc →
  (read_cell title cell (clear_worksheet title w).2).1 = Ok "".
Proof.
  intros Hin Hrc. destruct (title_found _ _ Hin) as (i & ws & Hfind).
  rewrite (clear_worksheet_run _ _ _ _ Hfind). simpl.
  erewrite read_cell_run; [| |exact Hrc]; cycle 1.
  { simpl. apply list_find_updated, Hfind. }
  simpl. unfold cell_at. rewrite lookup_empty. reflexivity.
Qed.

(** X11: a worksheet emptied by [clear_worksheet] gives no records, so an
    [extract_data] that follows does not write to the table of its name:
    the database entry of that title is the one before the two calls. *)
Theorem clear_worksheet_then_extract_data title w :
  title ∈ ws_title <$> w_sheet w →
  w_db (extract_data (clear_worksheet title w).2).2 !! title = w_db w !! title.
Proof.
  intros Hin. destruct (title_found _ _ Hin) as (i & ws & Hfind).
  rewrite (clear_worksheet_run _ _ _ _ Hfind). simpl.
  rewrite extract_data_passes_over; [reflexivity|]. simpl.
  unfold records_named.
  rewrite (worksheet_named_update_same _ _ _ _ _ Hfind). reflexivity.
Qed.

(** X12: clearing twice is clearing once: a second [clear_worksheet] on
    the same title returns normally and leaves the spreadsheet as the
    first call left it. *)
Theorem clear_worksheet_twice title w :
  title ∈ ws_title <$> w_sheet w →
  (clear_worksheet title (clear_worksheet title w).2).1 = Ok tt
  ∧ w_sheet (clear_worksheet title (clear_worksheet title w).2).2
    = w_sheet (clear_worksheet title w).2.
Proof.
  intros Hin. destruct (title_found _ _ Hin) as (i & ws & Hfind).
  rewrite (clear_worksheet_run _ _ _ _ Hfind). simpl.
  erewrite clear_worksheet_run; cycle 1.
  { simpl. apply list_find_updated, Hfind. }
  simpl. split; [reflexivity|].
  unfold update_worksheet. apply list_eq. intros j.
  destruct (decide (i = j)) as [->|Hne].
  - rewrite !list_lookup_alter_eq. destruct (w_sheet w !! j); reflexivity.
  - rewrite !list_lookup_alter_ne by exact Hne. reflexivity.
Qed.

(** ** More on [update_cell] *)

(** X13: [update_cell] on an existing worksheet and a label the client
    decodes changes that one cell only: a read of any other cell of the
    worksheet gives what it gave before, every other worksheet is as
    before, and so are the titles, the database and the files. *)
Theorem update_cell_changes_one_cell title cell new_value rc w :
  title ∈ ws_title <$> w_sheet w →
  a1_to_rowcol cell = Some rc →
  ∃ w', update_cell title cell new_value w = (Ok tt, w')
    ∧ (∀ cell' rc', a1_to_rowcol cell' = Some rc' → rc' ≠ rc →
         (read_cell title cell' w').1 = (read_cell title cell' w).1)
    ∧ (∀ t, t ≠ title →
         worksheet_named t (w_sheet w') = worksheet_named t (w_sheet w))
    ∧ ws_title <$> w_sheet w' = ws_title <$> w_sheet w
    ∧ w_db w' = w_db w
    ∧ w_fs w' = w_fs w.
Proof.
  intros Hin Hrc. destruct (title_found _ _ Hin) as (i & ws & Hfind).
  rewrite (update_cell_run _ _ _ _ _ _ _ Hfind Hrc).
  eexists. split; [reflexivity|]. simpl. repeat split.
  - intros cell' rc' Hrc' Hne.
    erewrite read_cell_run; [| |exact Hrc']; cycle 1.
    { simpl. apply list_find_updated, Hfind. }
    rewrite (read_cell_run _ _ _ _ _ _ Hfind Hrc'). simpl.
    unfold cell_at. destruct rc' as [r c]. simpl.
    rewrite lookup_insert_ne by congruence. reflexivity.
  - intros t Hne. apply (worksheet_named_update_other _ _ _ _ _ _ Hfind Hne).
  - apply update_worksheet_titles.
Qed.

(** X14: on an existing worksheet, a label that the client cannot decode
    makes [update_cell] raise IncorrectCellLabel after the worksheet
    lookup, and nothing is written: spreadsheet and database are as
    before. *)
Theorem update_cell_undecodable_label title cell new_value w :
  title ∈ ws_title <$> w_sheet w →
  a1_to_rowcol cell = None →
  (update_cell title cell new_value w).1 = Raise IncorrectCellLabel
  ∧ w_sheet (update_cell title cell new_value w).2 = w_sheet w
  ∧ w_db (update_cell title cell new_value w).2 = w_db w
  ∧ calls_since (length (w_calls w)) (update_cell title cell new_value w).2
    = [ShWorksheet title; WsUpdateAcell title cell new_value].
Proof.
  intros Hin Hrc. rewrite update_cell_bad_label by assumption.
  unfold calls_since. simpl. rewrite <- app_assoc, drop_app_length.
  repeat split.
Qed.

(** ** Footprints *)

Lemma update_cell_footprint title cell new_value w :
  w_db (update_cell title cell new_value w).2 = w_db w
  ∧ w_fs (update_cell title cell new_value w).2 = w_fs w
  ∧ ws_title <$> w_sheet (update_cell title cell new_value w).2 = ws_title <$> w_sheet w.
Proof.
  destruct (decide (title ∈ ws_title <$> w_sheet w)) as [Hin|Hnot].
  - destruct (a1_to_rowcol cell) as [rc|] eqn:Hrc.
    + destruct (title_found _ _ Hin) as (i & ws & Hfind).
      rewrite (update_cell_run _ _ _ _ _ _ _ Hfind Hrc). simpl.
      rewrite update_worksheet_titles. repeat split.
    + rewrite update_cell_bad_label by assumption. repeat split.
  - unfold update_cell, bind. rewrite sheet_worksheet_missing by assumption.
    repeat split.
Qed.

Lemma clear_worksheet_footprint title w :
  w_db (clear_worksheet title w).2 = w_db w
  ∧ w_fs (clear_worksheet title w).2 = w_fs w
  ∧ ws_title <$> w_sheet (clear_worksheet title w).2 = ws_title <$> w_sheet w.
Proof.
  destruct (decide (title ∈ ws_title <$> w_sheet w)) as [Hin|Hnot].
  - destruct (title_found _ _ Hin) as (i & ws & Hfind).
    rewrite (clear_worksheet_run _ _ _ _ Hfind). simpl.
    rewrite update_worksheet_titles. repeat split.
  - unfold clear_worksheet, bind. rewrite sheet_worksheet_missing by assumption.
    repeat split.
Qed.

Lemma create_worksheet_new_run title w :
  title ∉ ws_title <$> w_sheet w →
  create_worksheet title w
  = (Ok tt,
     add_log (mkLog INFO "Worksheet created" [])
       (set_sheet (w_sheet w ++ [mkWorksheet title ∅])
          (add_call (ShAddWorksheet title)
             (add_log (mkLog INFO "Creating Worksheet" [])
                (add_call ShWorksheets w))))).
Proof.
  intros Hnot. unfold create_worksheet, bind at 1. rewrite sheet_worksheets_run.
  rewrite handles_titles. simpl.
  destruct (decide _) as [Hin|_]; [contradiction|].
  unfold sheet_add_worksheet. run.
  destruct (decide _) as [Hin|_]; [contradiction|]. reflexivity.
Qed.

Lemma create_worksheet_footprint title w :
  w_db (create_worksheet title w).2 = w_db w
  ∧ w_fs (create_worksheet title w).2 = w_fs w.
Proof.
  destruct (decide (title ∈ ws_title <$> w_sheet w)) as [Hin|Hnot].
  - rewrite create_worksheet_existing_run by exact Hin. split; reflexivity.
  - rewrite create_worksheet_new_run by exact Hnot. split; reflexivity.
Qed.

(** X15: the methods that work on the spreadsheet never touch the
    database or the files, for every input and every outcome:
    [update_cell], [clear_worksheet], [create_worksheet] and
    [update_in_range] leave both as they were, and the first two and the
    last also leave the list of worksheet titles as it was. *)
Theorem sheet_methods_footprint worksheet cell new_value start_cell end_cell cell_values w :
  (w_db (update_cell worksheet cell new_value w).2 = w_db w
   ∧ w_fs (update_cell worksheet cell new_value w).2 = w_fs w
   ∧ ws_title <$> w_sheet (update_cell worksheet cell new_value w).2
     = ws_title <$> w_sheet w)
  ∧ (w_db (clear_worksheet worksheet w).2 = w_db w
     ∧ w_fs (clear_worksheet worksheet w).2 = w_fs w
     ∧ ws_title <$> w_sheet (clear_worksheet worksheet w).2 = ws_title <$> w_sheet w)
  ∧ (w_db (create_worksheet worksheet w).2 = w_db w
     ∧ w_fs (create_worksheet worksheet w).2 = w_fs w)
  ∧ (w_db (update_in_range worksheet start_cell end_cell cell_values w).2 = w_db w
     ∧ w_fs (update_in_range worksheet start_cell end_cell cell_values w).2 = w_fs w
     ∧ w_sheet (update_in_range worksheet start_cell end_cell cell_values w).2
       = w_sheet w).
Proof.
  split; [apply update_cell_footprint|].
  split; [apply clear_worksheet_footprint|].
  split; [apply create_worksheet_footprint|].
  rewrite update_in_range_run. destruct (decide _); repeat split.
Qed.

(** X16: [create_tables] never touches the spreadsheet, the files or the
    log, whatever the file holds and whatever the engine answers; it makes
    no request to the spreadsheet service. *)
Theorem create_tables_footprint file_path w :
  w_sheet (create_tables file_path w).2 = w_sheet w
  ∧ w_fs (create_tables file_path w).2 = w_fs w
  ∧ w_log (create_tables file_path w).2 = w_log w
  ∧ Forall (λ c, match c with FsOpenRead _ | DbExecutescript _ => True | _ => False end)
      (calls_since (length (w_calls w)) (create_tables file_path w).2).
Proof.
  unfold create_tables, bind, calls_since. rewrite open_read_run.
  destruct (readable_text w file_path) as [sql|]; simpl.
  - rewrite executescript_run. simpl.
    rewrite <- app_assoc, drop_app_length. repeat split. repeat constructor.
  - rewrite drop_app_length. repeat split. repeat constructor.
Qed.

(** ** More on the loop of [update_in_range] *)

(** X17: the assignment loop of lines 90-91 raises IndexError exactly
    when there are more values than cells, and in no case touches the
    world; with no more values than cells, it gives back a list of the
    same length in which the first cells carry the values in order, at
    their own coordinates, and the cells after them are as fetched. *)
Theorem assignment_loop_bounds (cell_list : list Cell) (cell_values : list string) w :
  (assign_values cell_list 0 cell_values w).2 = w
  ∧ ((assign_values cell_list 0 cell_values w).1 = Raise IndexError
     ↔ length cell_list < length cell_values)
  ∧ (length cell_values ≤ length cell_list →
     ∃ r, (assign_values cell_list 0 cell_values w).1 = Ok r
       ∧ length r = length cell_list
       ∧ (∀ k v, cell_values !! k = Some v →
            ∃ c, cell_list !! k = Some c
              ∧ r !! k = Some (mkCell (cell_row c) (cell_col c) v))
       ∧ (∀ j, length cell_values ≤ j → r !! j = cell_list !! j)).
Proof.
  destruct (decide (length cell_list < length cell_values)) as [Hlt|Hge].
  - rewrite assign_values_overflow by (simpl; lia).
    split; [reflexivity|]. split; [split; auto|]. lia.
  - destruct (assign_values_fits cell_values cell_list 0 w)
      as (r & Hrun & Hlr & Hset & Hkeep); [simpl; lia|].
    rewrite Hrun. split; [reflexivity|]. split; [split; [discriminate|lia]|].
    intros _. exists r. split; [reflexivity|]. split; [exact Hlr|]. split.
    + exact Hset.
    + intros j Hj. apply Hkeep. simpl. lia.
Qed.

(** X19: as written, [update_in_range] raises on every input: it raises
    WorksheetNotFound when no worksheet has the title and TypeError (from
    the [range] call of line 88) when one has; the spreadsheet is never
    changed and no writing request is sent. *)
Theorem update_in_range_always_raises worksheet start_cell end_cell cell_values w :
  (update_in_range worksheet start_cell end_cell cell_values w).1
    = Raise (if decide (worksheet ∈ ws_title <$> w_sheet w)
             then TypeError else WorksheetNotFound)
  ∧ w_sheet (update_in_range worksheet start_cell end_cell cell_values w).2 = w_sheet w
  ∧ Forall (λ c, is_sheet_write c = false)
      (calls_since (length (w_calls w))
         (update_in_range worksheet start_cell end_cell cell_values w).2).
Proof.
  rewrite update_in_range_run. unfold calls_since.
  destruct (decide _); simpl; (split; [reflexivity|]); (split; [reflexivity|]).
  - rewrite <- app_assoc, drop_app_length. repeat constructor.
  - rewrite drop_app_length. repeat constructor.
Qed.

(** ** The table that [extract_data] creates *)

(** Once a table is there, the loop keeps it and keeps its columns. *)
Lemma extract_loop_keeps_columns (s : list Worksheet) (L : list Handle) t cols :
  (∀ h, h ∈ L → h_title h ∈ ws_title <$> s) →
  ∀ w, w_sheet w = s →
    (∃ tb, w_db w !! t = Some tb ∧ tbl_columns tb = cols) →
    ∃ tb, w_db (for_each L extract_worksheet w).2 !! t = Some tb ∧ tbl_columns tb = cols.
Proof.
  intros Hlisted w Hs Htb.
  destruct (extract_loop_invariant
              (λ db, ∃ tb, db !! t = Some tb ∧ tbl_columns tb = cols) (λ _, true)
              s L Hlisted) with (w := w) as (_ & Hdb & _); try assumption.
  - intros t'. split; reflexivity.
  - intros h db _ (tb & Hlook & Hcols) _. split; [|reflexivity].
    destruct (db_to_sql_append_columns
                (pd_DataFrame (records_named (h_title h) s)) (h_title h) db t tb Hlook)
      as (tb' & Hlook' & Hcols').
    exists tb'. split; [exact Hlook'|congruence].
Qed.

Lemma extract_loop_creates (s : list Worksheet) (L : list Handle) t :
  (∀ h, h ∈ L → h_title h ∈ ws_title <$> s) →
  t ∈ h_title <$> L →
  records_named t s ≠ [] →
  ∀ w, w_sheet w = s → w_db w !! t = None →
    (for_each L extract_worksheet w).1 = Ok tt →
    ∃ tb, w_db (for_each L extract_worksheet w).2 !! t = Some tb
      ∧ tbl_columns tb = df_columns (pd_DataFrame (records_named t s)).
Proof.
  induction L as [|x L IH]; intros Hlisted Ht Hrec w Hs Hnone; simpl.
  - apply elem_of_nil in Ht. contradiction.
  - assert (∀ h, h ∈ L → h_title h ∈ ws_title <$> s) as Hlisted'
      by (intros h Hh; apply Hlisted; right; exact Hh).
    unfold bind. rewrite extract_worksheet_run by (rewrite Hs; apply Hlisted; left).
    rewrite Hs. rewrite fmap_cons in Ht.
    destruct (values_named (h_title x) s) as [|keys rows]; [discriminate|]. simpl.
    destruct (decide (length (records_named (h_title x) s) = 0)) as [Hz|Hnz].
    + apply IH; try assumption.
      apply elem_of_cons in Ht as [->|Ht]; [|exact Ht].
      apply length_zero_iff_nil in Hz. contradiction.
    + rewrite to_sql_run. simpl.
      pose proof (db_to_sql_append_ok
                    (pd_DataFrame (records_named (h_title x) s)) (h_title x) (w_db w))
        as Hsql.
      pose proof (db_to_sql_append_other
                    (pd_DataFrame (records_named (h_title x) s)) (h_title x) (w_db w) t)
        as Hother.
      destruct (db_to_sql (pd_DataFrame (records_named (h_title x) s)) (h_title x)
                  IfExistsAppend (w_db w)) as [[[]|e] db1]; simpl in *; [|discriminate].
      destruct (Hsql eq_refl) as (_ & tb1 & Htb1 & Hcols1).
      destruct (decide (h_title x = t)) as [Heq|Hne].
      * intros _. apply (extract_loop_keeps_columns s); [assumption|exact Hs|]. simpl.
        exists tb1. rewrite <- Heq. split; [exact Htb1|].
        apply Hcols1. rewrite Heq. exact Hnone.
      * apply IH; try assumption.
        { apply elem_of_cons in Ht as [->|Ht]; [congruence|exact Ht]. }
        simpl. rewrite Hother by congruence. exact Hnone.
Qed.

(** X20: when [extract_data] returns normally, a worksheet that has
    records and whose title names no table has had its table created, and
    the columns of that table are the keys of the worksheet's records (the
    header row). *)
Theorem extract_data_creates_table_with_header title w :
  (extract_data w).1 = Ok tt →
  records_named title (w_sheet w) ≠ [] →
  w_db w !! title = None →
  ∃ tb, w_db (extract_data w).2 !! title = Some tb
    ∧ tbl_columns tb = ⋃ (dom <$> records_named title (w_sheet w)).
Proof.
  intros Hok Hrec Hnone.
  pose proof (extract_loop_creates (w_sheet w)
                (imap (λ i ws, mkHandle i (ws_title ws)) (w_sheet w)) title
                (handle_listed _)) as Hloop.
  specialize (Hloop ltac:(rewrite handles_titles; apply records_named_listed, Hrec) Hrec
                (add_log (mkLog INFO "Extracting mappings from Google sheet." [])
                   (add_call ShWorksheets w)) eq_refl Hnone).
  rewrite extract_data_run in Hok |- *. simpl in *.
  destruct (for_each _ _ _) as [[[]|e] w']; simpl in *; [|discriminate].
  destruct (Hloop eq_refl) as (tb & Htb & Hcols). eauto.
Qed.

End ConnectorProofs.

(** * The scenario of the specification, run on the model *)

Section Scenario.

#[local] Existing Instance std_services.
#[local] Existing Instance text_tabular.

(** C4: on the scenario spreadsheet the range A2:B2 of Employees has two
    cells and two values are supplied, yet [update_in_range] raises
    TypeError at the [range] call of line 88, which receives a tuple in
    place of the formatted range: no cell is read, no [update_cells]
    request is sent, and the spreadsheet is as before. *)
Theorem update_in_range_matching_length_raises :
  a1_range_to_grid_range "A2:B2" = Some ((2, 1), (2, 2))
  ∧ length (cells_of_range employees_cells 2 1 2 2) = length ["Eve"; "HR"]
  ∧ update_in_range "Employees" "A2" "B2" ["Eve"; "HR"] scenario_world
    = (Raise TypeError,
       add_call (WsRange "Employees" (PyTuple ["%s:%s"; "A2"; "B2"]))
         (add_call (ShWorksheet "Employees") scenario_world)).
Proof.
  split; [reflexivity|]. split; [reflexivity|].
  rewrite update_in_range_run. reflexivity.
Qed.

(** C8: with three values for the two cells of A2:B2, [update_in_range]
    raises TypeError at the [range] call and not IndexError in its loop;
    with one value for the two cells it raises the same TypeError, so the
    second cell is not written back: in both cases the trace holds no
    [update_cells] request. *)
Theorem update_in_range_mismatched_length_raises :
  (update_in_range "Employees" "A2" "B2" ["Eve"; "HR"; "x"] scenario_world).1
    = Raise TypeError
  ∧ (update_in_range "Employees" "A2" "B2" ["Eve"] scenario_world).1
    = Raise TypeError
  ∧ w_calls (update_in_range "Employees" "A2" "B2" ["Eve"] scenario_world).2
    = [ShWorksheet "Employees"; WsRange "Employees" (PyTuple ["%s:%s"; "A2"; "B2"])]
  ∧ w_sheet (update_in_range "Employees" "A2" "B2" ["Eve"] scenario_world).2
    = scenario_sheet.
Proof.
  rewrite !update_in_range_run. repeat split.
Qed.

(** With the range given as a formatted string, the client fetches the
    two cells and lines 90-93 send them back with the new values. *)
Example range_string_then_write_back :
  let fetched := ws_range (mkHandle 0 "Employees") (PyStr "A2:B2") scenario_world in
  fetched.1 = Ok [mkCell 2 1 "Ada"; mkCell 2 2 "R&D"]
  ∧ (write_back "Employees" [mkCell 2 1 "Ada"; mkCell 2 2 "R&D"] ["Eve"; "HR"] fetched.2).1
    = Ok tt
  ∧ worksheet_named "Employees"
      (w_sheet (write_back "Employees" [mkCell 2 1 "Ada"; mkCell 2 2 "R&D"] ["Eve"; "HR"]
                  fetched.2).2)
    = Some (mkWorksheet "Employees"
              (<[(2, 2) := "HR"]> (<[(2, 1) := "Eve"]> employees_cells))).
Proof. vm_compute. repeat split. Qed.

(** The scenario of section 8: Employees has three records and
    Departments none; after [extract_data] the database holds a table
    Employees of three rows and no table Departments. *)
Example scenario_extract_data :
  (extract_data scenario_world).1 = Ok tt
  ∧ length (table_rows (w_db (extract_data scenario_world).2) "Employees") = 3
  ∧ w_db (extract_data scenario_world).2 !! "Departments" = None.
Proof. vm_compute. repeat split. Qed.

(** A worksheet that holds no value stops the extraction: the fetch of
    its records raises IndexError, the worksheets after it are not read
    and no table is written. *)
Example blank_worksheet_stops_extraction :
  (extract_data blank_world).1 = Raise IndexError
  ∧ w_db (extract_data blank_world).2 = ∅
  ∧ w_calls (extract_data blank_world).2
    = [ShWorksheets; ShWorksheet "Blank"; WsGetAllRecords "Blank"]
  ∧ w_log (extract_data blank_world).2
    = [extraction_started; mkLog INFO "Extracting %s" ["Blank"]].
Proof. vm_compute. repeat split. Qed.

Lemma scenario_titles_NoDup : NoDup (ws_title <$> w_sheet scenario_world).
Proof. apply (bool_decide_unpack _). vm_compute. reflexivity. Defined.

Lemma extract_data_skips_empty_worksheet_witness :
  worksheet_named "Departments" (w_sheet scenario_world)
    = Some (mkWorksheet "Departments" departments_cells)
  ∧ get_all_records departments_cells = []
  ∧ w_db (extract_data scenario_world).2 !! "Departments"
    = w_db scenario_world !! "Departments"
  ∧ Forall (λ c, is_to_sql_on "Departments" c = false)
      (calls_since (length (w_calls scenario_world)) (extract_data scenario_world).2)
  ∧ ((extract_data scenario_world).1 = Ok tt →
       mkLog INFO "%s %s extracted" ["0"; "Departments"]
         ∈ w_log (extract_data scenario_world).2).
Proof.
  split; [vm_compute; reflexivity|]. split; [vm_compute; reflexivity|].
  apply (extract_data_skips_empty_worksheet scenario_world "Departments"
           (mkWorksheet "Departments" departments_cells));
    vm_compute; reflexivity.
Defined.



Lemma create_worksheet_existing_title_witness :
  "Employees" ∈ ws_title <$> w_sheet scenario_world
  ∧ ∃ w', create_worksheet "Employees" scenario_world = (Ok tt, w')
      ∧ w_sheet w' = w_sheet scenario_world
      ∧ w_db w' = w_db scenario_world
      ∧ w_fs w' = w_fs scenario_world
      ∧ w_log w' = w_log scenario_world
                   ++ [mkLog ERROR "Worksheet '%s' already exists" ["Employees"]]
      ∧ w_calls w' = w_calls scenario_world ++ [ShWorksheets].
Proof.
  assert ("Employees" ∈ ws_title <$> w_sheet scenario_world) as Hin
    by (apply (bool_decide_unpack _); vm_compute; reflexivity).
  split; [exact Hin|].
  apply (create_worksheet_existing_title "Employees" scenario_world Hin).
Defined.

Lemma update_cell_then_read_witness :
  "Employees" ∈ ws_title <$> w_sheet scenario_world
  ∧ a1_to_rowcol "B2" = Some (2, 2)
  ∧ ∃ w1 w2, update_cell "Employees" "B2" "HR" scenario_world = (Ok tt, w1)
      ∧ read_cell "Employees" "B2" w1 = (Ok "HR", w2).
Proof.
  assert ("Employees" ∈ ws_title <$> w_sheet scenario_world) as Hin
    by (apply (bool_decide_unpack _); vm_compute; reflexivity).
  split; [exact Hin|]. split; [reflexivity|].
  apply (update_cell_then_read "Employees" "B2" "HR" (2, 2) scenario_world Hin).
  reflexivity.
Defined.

Lemma create_tables_outcomes_witness :
  (readable_text scenario_world "missing.sql" = None
   ∧ (create_tables "missing.sql" scenario_world).1 = Raise IOError)
  ∧ (readable_text scenario_world "bad.sql" = Some "CREATE TABLE"
     ∧ (sql_engine "CREATE TABLE" (w_db scenario_world)).1 = false
     ∧ (create_tables "bad.sql" scenario_world).1 = Raise DatabaseError)
  ∧ (readable_text scenario_world "schema.sql" = Some employees_ddl
     ∧ (sql_engine employees_ddl (w_db scenario_world)).1 = true
     ∧ (create_tables "schema.sql" scenario_world).1 = Ok tt
     ∧ w_calls (create_tables "schema.sql" scenario_world).2
       = [FsOpenRead "schema.sql"; DbExecutescript employees_ddl]).
Proof.
  assert (readable_text scenario_world "missing.sql" = None) as Hmissing
    by (vm_compute; reflexivity).
  assert (readable_text scenario_world "bad.sql" = Some "CREATE TABLE") as Hbad
    by (vm_compute; reflexivity).
  assert (readable_text scenario_world "schema.sql" = Some employees_ddl) as Hgood
    by (vm_compute; reflexivity).
  assert ((sql_engine "CREATE TABLE" (w_db scenario_world)).1 = false) as Hfails
    by (vm_compute; reflexivity).
  assert ((sql_engine employees_ddl (w_db scenario_world)).1 = true) as Hruns
    by (vm_compute; reflexivity).
  split; [split; [exact Hmissing|]|split; [split; [exact Hbad|split; [exact Hfails|]]|
          split; [exact Hgood|split; [exact Hruns|]]]].
  - exact (proj1 (create_tables_outcomes "missing.sql" scenario_world) Hmissing).
  - destruct (proj2 (create_tables_outcomes "bad.sql" scenario_world) _ Hbad)
      as (_ & _ & Herr & _).
    exact (Herr Hfails).
  - destruct (proj2 (create_tables_outcomes "schema.sql" scenario_world) _ Hgood)
      as (Hcalls & _ & _ & Hok).
    split; [exact (Hok Hruns)|exact Hcalls].
Defined.

Lemma missing_title_not_found_and_clear_empties_witness :
  (("Payroll" ∉ ws_title <$> w_sheet scenario_world)
   ∧ update_cell "Payroll" "A1" "x" scenario_world
     = (Raise WorksheetNotFound, add_call (ShWorksheet "Payroll") scenario_world)
   ∧ clear_worksheet "Payroll" scenario_world
     = (Raise WorksheetNotFound, add_call (ShWorksheet "Payroll") scenario_world))
  ∧ ("Employees" ∈ ws_title <$> w_sheet scenario_world
     ∧ ∃ w', clear_worksheet "Employees" scenario_world = (Ok tt, w')
         ∧ ws_title <$> w_sheet w' = ws_title <$> w_sheet scenario_world
         ∧ worksheet_named "Employees" (w_sheet w') = Some (mkWorksheet "Employees" ∅)
         ∧ (∀ t, t ≠ "Employees" →
              worksheet_named t (w_sheet w') = worksheet_named t (w_sheet scenario_world))
         ∧ w_db w' = w_db scenario_world).
Proof.
  assert ("Payroll" ∉ ws_title <$> w_sheet scenario_world) as Hnot
    by (apply (bool_decide_unpack _); vm_compute; reflexivity).
  assert ("Employees" ∈ ws_title <$> w_sheet scenario_world) as Hin
    by (apply (bool_decide_unpack _); vm_compute; reflexivity).
  split.
  - split; [exact Hnot|].
    destruct (proj1 (missing_title_not_found_and_clear_empties "Payroll" scenario_world) Hnot)
      as [Hupdate Hclear].
    split; [apply Hupdate|exact Hclear].
  - split; [exact Hin|].
    exact (proj2 (missing_title_not_found_and_clear_empties "Employees" scenario_world) Hin).
Defined.

Lemma create_tables_io_error_keeps_db_witness :
  readable_text scenario_world "secret.sql" = None
  ∧ ∃ w', create_tables "secret.sql" scenario_world = (Raise IOError, w')
      ∧ w_db w' = w_db scenario_world
      ∧ w_calls w' = w_calls scenario_world ++ [FsOpenRead "secret.sql"]
      ∧ Forall (λ c, is_db_call c = false)
          (calls_since (length (w_calls scenario_world)) w').
Proof.
  assert (readable_text scenario_world "secret.sql" = None) as Hsecret
    by (vm_compute; reflexivity).
  split; [exact Hsecret|].
  apply (create_tables_io_error_keeps_db "secret.sql" scenario_world Hsecret).
Defined.

(** ** The further properties on the scenario *)

Lemma extract_data_keeps_unrelated_tables_witness :
  ("id" ∉ ws_title <$> w_sheet stale_world)
  ∧ w_db (extract_data stale_world).2 !! "id" = w_db stale_world !! "id"
  ∧ Forall (λ c, is_to_sql_on "id" c = false)
      (calls_since (length (w_calls stale_world)) (extract_data stale_world).2).
Proof.
  assert ("id" ∉ ws_title <$> w_sheet stale_world) as Hnot
    by (apply (bool_decide_unpack _); vm_compute; reflexivity).
  split; [exact Hnot|].
  apply (extract_data_keeps_unrelated_tables stale_world "id" Hnot).
Defined.

Lemma extract_data_appends_in_listing_order_witness :
  (extract_data scenario_world).1 = Ok tt
  ∧ filter (λ c, is_db_call c = true)
      (calls_since (length (w_calls scenario_world)) (extract_data scenario_world).2)
    = expected_appends (w_sheet scenario_world) (ws_title <$> w_sheet scenario_world).
Proof.
  assert ((extract_data scenario_world).1 = Ok tt) as Hok by (vm_compute; reflexivity).
  split; [exact Hok|].
  apply (proj2 (extract_data_appends_in_listing_order scenario_world)), Hok.
Defined.

Lemma create_worksheet_adds_empty_worksheet_witness :
  ("Payroll" ∉ ws_title <$> w_sheet scenario_world)
  ∧ ∃ w', create_worksheet "Payroll" scenario_world = (Ok tt, w')
      ∧ w_sheet w' = w_sheet scenario_world ++ [mkWorksheet "Payroll" ∅]
      ∧ worksheet_named "Payroll" (w_sheet w') = Some (mkWorksheet "Payroll" ∅)
      ∧ (∀ t, t ≠ "Payroll" →
           worksheet_named t (w_sheet w') = worksheet_named t (w_sheet scenario_world))
      ∧ w_db w' = w_db scenario_world
      ∧ w_log w' = w_log scenario_world
                   ++ [mkLog INFO "Creating Worksheet" [];
                       mkLog INFO "Worksheet created" []].
Proof.
  assert ("Payroll" ∉ ws_title <$> w_sheet scenario_world) as Hnot
    by (apply (bool_decide_unpack _); vm_compute; reflexivity).
  split; [exact Hnot|].
  apply (create_worksheet_adds_empty_worksheet "Payroll" scenario_world Hnot).
Defined.

Lemma create_worksheet_keeps_titles_distinct_witness :
  NoDup (ws_title <$> w_sheet scenario_world)
  ∧ NoDup (ws_title <$> w_sheet (create_worksheet "Payroll" scenario_world).2).
Proof.
  split; [exact scenario_titles_NoDup|].
  apply (create_worksheet_keeps_titles_distinct "Payroll" scenario_world).
  exact scenario_titles_NoDup.
Defined.

Lemma create_worksheet_then_extract_data_witness :
  ("Payroll" ∉ ws_title <$> w_sheet scenario_world)
  ∧ w_db (extract_data (create_worksheet "Payroll" scenario_world).2).2 !! "Payroll"
    = w_db scenario_world !! "Payroll".
Proof.
  assert ("Payroll" ∉ ws_title <$> w_sheet scenario_world) as Hnot
    by (apply (bool_decide_unpack _); vm_compute; reflexivity).
  split; [exact Hnot|].
  apply (create_worksheet_then_extract_data "Payroll" scenario_world Hnot).
Defined.

Lemma scenario_has_employees : "Employees" ∈ ws_title <$> w_sheet scenario_world.
Proof. apply (bool_decide_unpack _). vm_compute. reflexivity. Defined.

Lemma clear_worksheet_then_read_witness :
  "Employees" ∈ ws_title <$> w_sheet scenario_world
  ∧ a1_to_rowcol "B2" = Some (2, 2)
  ∧ (read_cell "Employees" "B2" (clear_worksheet "Employees" scenario_world).2).1 = Ok "".
Proof.
  split; [exact scenario_has_employees|]. split; [reflexivity|].
  apply (clear_worksheet_then_read "Employees" "B2" (2, 2) scenario_world).
  - exact scenario_has_employees.
  - reflexivity.
Defined.

Lemma clear_worksheet_then_extract_data_witness :
  "Employees" ∈ ws_title <$> w_sheet scenario_world
  ∧ w_db (extract_data (clear_worksheet "Employees" scenario_world).2).2 !! "Employees"
    = w_db scenario_world !! "Employees".
Proof.
  split; [exact scenario_has_employees|].
  apply (clear_worksheet_then_extract_data "Employees" scenario_world).
  exact scenario_has_employees.
Defined.

Lemma clear_worksheet_twice_witness :
  "Employees" ∈ ws_title <$> w_sheet scenario_world
  ∧ (clear_worksheet "Employees" (clear_worksheet "Employees" scenario_world).2).1 = Ok tt
  ∧ w_sheet (clear_worksheet "Employees" (clear_worksheet "Employees" scenario_world).2).2
    = w_sheet (clear_worksheet "Employees" scenario_world).2.
Proof.
  split; [exact scenario_has_employees|].
  apply (clear_worksheet_twice "Employees" scenario_world).
  exact scenario_has_employees.
Defined.

Lemma update_cell_changes_one_cell_witness :
  "Employees" ∈ ws_title <$> w_sheet scenario_world
  ∧ a1_to_rowcol "B2" = Some (2, 2)
  ∧ ∃ w', update_cell "Employees" "B2" "HR" scenario_world = (Ok tt, w')
      ∧ (∀ cell' rc', a1_to_rowcol cell' = Some rc' → rc' ≠ (2, 2) →
           (read_cell "Employees" cell' w').1
           = (read_cell "Employees" cell' scenario_world).1)
      ∧ (∀ t, t ≠ "Employees" →
           worksheet_named t (w_sheet w') = worksheet_named t (w_sheet scenario_world))
      ∧ ws_title <$> w_sheet w' = ws_title <$> w_sheet scenario_world
      ∧ w_db w' = w_db scenario_world
      ∧ w_fs w' = w_fs scenario_world.
Proof.
  split; [exact scenario_has_employees|]. split; [reflexivity|].
  apply (update_cell_changes_one_cell "Employees" "B2" "HR" (2, 2) scenario_world).
  - exact scenario_has_employees.
  - reflexivity.
Defined.

Lemma update_cell_undecodable_label_witness :
  "Employees" ∈ ws_title <$> w_sheet scenario_world
  ∧ a1_to_rowcol "7" = None
  ∧ (update_cell "Employees" "7" "HR" scenario_world).1 = Raise IncorrectCellLabel
  ∧ w_sheet (update_cell "Employees" "7" "HR" scenario_world).2 = w_sheet scenario_world
  ∧ w_db (update_cell "Employees" "7" "HR" scenario_world).2 = w_db scenario_world
  ∧ calls_since (length (w_calls scenario_world))
      (update_cell "Employees" "7" "HR" scenario_world).2
    = [ShWorksheet "Employees"; WsUpdateAcell "Employees" "7" "HR"].
Proof.
  split; [exact scenario_has_employees|]. split; [reflexivity|].
  apply (update_cell_undecodable_label "Employees" "7" "HR" scenario_world).
  - exact scenario_has_employees.
  - reflexivity.
Defined.

Lemma assignment_loop_bounds_witness :
  (assign_values [mkCell 2 1 "Ada"; mkCell 2 2 "R&D"] 0 ["Eve"; "HR"; "x"] scenario_world).1
    = Raise IndexError
  ∧ ∃ r, (assign_values [mkCell 2 1 "Ada"; mkCell 2 2 "R&D"] 0 ["Eve"] scenario_world).1
         = Ok r
      ∧ r !! 0 = Some (mkCell 2 1 "Eve")
      ∧ r !! 1 = Some (mkCell 2 2 "R&D").
Proof.
  split.
  - apply (proj1 (proj2 (assignment_loop_bounds
             [mkCell 2 1 "Ada"; mkCell 2 2 "R&D"] ["Eve"; "HR"; "x"] scenario_world))).
    simpl. lia.
  - destruct (proj2 (proj2 (assignment_loop_bounds
                [mkCell 2 1 "Ada"; mkCell 2 2 "R&D"] ["Eve"] scenario_world)))
      as (r & Hr & _ & Hset & Hkeep); [simpl; lia|].
    exists r. split; [exact Hr|]. split.
    + destruct (Hset 0 "Eve" eq_refl) as (c & Hc & Hr0).
      injection Hc as <-. exact Hr0.
    + rewrite (Hkeep 1) by (simpl; lia). reflexivity.
Defined.

Lemma write_back_fits_witness :
  "Employees" ∈ ws_title <$> w_sheet scenario_world
  ∧ length ["Eve"] ≤ length [mkCell 2 1 "Ada"; mkCell 2 2 "R&D"]
  ∧ ∃ r w', write_back "Employees" [mkCell 2 1 "Ada"; mkCell 2 2 "R&D"] ["Eve"]
              scenario_world = (Ok tt, w')
      ∧ w_calls w' = w_calls scenario_world
                     ++ [ShWorksheet "Employees"; WsUpdateCells "Employees" r]
      ∧ length r = 2
      ∧ r !! 1 = Some (mkCell 2 2 "R&D").
Proof.
  split; [exact scenario_has_employees|]. split; [simpl; lia|].
  destruct (write_back_fits "Employees" [mkCell 2 1 "Ada"; mkCell 2 2 "R&D"] ["Eve"]
              scenario_world scenario_has_employees)
    as (r & w' & Hrun & Hcalls & Hlen & _ & Hkeep); [simpl; lia|].
  exists r, w'. split; [exact Hrun|]. split; [exact Hcalls|]. split; [exact Hlen|].
  rewrite (Hkeep 1) by (simpl; lia). reflexivity.
Defined.

Lemma scenario_employees_records : records_named "Employees" (w_sheet scenario_world) ≠ [].
Proof. vm_compute. discriminate. Defined.

Lemma extract_data_creates_table_with_header_witness :
  (extract_data scenario_world).1 = Ok tt
  ∧ ∃ tb, w_db (extract_data scenario_world).2 !! "Employees" = Some tb
      ∧ tbl_columns tb = ⋃ (dom <$> records_named "Employees" (w_sheet scenario_world)).
Proof.
  assert ((extract_data scenario_world).1 = Ok tt) as Hok by (vm_compute; reflexivity).
  split; [exact Hok|].
  apply (extract_data_creates_table_with_header "Employees" scenario_world).
  - exact Hok.
  - exact scenario_employees_records.
  - reflexivity.
Defined.

End Scenario.
